(** * adbconnection: the connection coordinator of [adbconnection.cc]

    A shallow embedding of [AdbConnectionState] (the poll loop, the local
    handshake and DDM packet handling, the hand-off of the descriptors to the
    JDWP agent and the reconnection back-off) and the properties of it that
    the specification states.

    Conventions of the embedding.
    - A [uint32_t] or [int] is a [Z] with its wrap-around written out
      ([uint32_t] and [int32_t] below); a byte buffer is a [list Z] of values
      in [0, 256).
    - The object's fields are the record [AdbConnectionState]; every member
      function takes the state (and the bytes readable on the debug socket)
      and returns the new one together with the list of [Event]s it produced,
      in order: system calls that write, callbacks into the runtime, lock
      operations.
    - What the environment answers (results of system calls, of the adbd
      client library, of the runtime) is read from an [Oracle], one per
      iteration of the worker.
    - [DCHECK]s are not evaluated (release build); a failed [CHECK] ends the
      run in [PcAborted]; a store outside an array ends it in [PcUndefined]. *)

From Stdlib Require Import ZArith List Bool Lia.
From Stdlib Require String Ascii.
Import ListNotations.
Local Open Scope Z_scope.

(** ** Fixed-width integers and byte buffers *)

Definition uint32_t (x : Z) : Z := x mod 2 ^ 32.
Definition int32_t (x : Z) : Z := (x + 2 ^ 31) mod 2 ^ 32 - 2 ^ 31.

(** The four bytes found in memory after [*(uint32_t* )p = htonl(x)]. *)
Definition htonl (x : Z) : list Z :=
  [ Z.land (Z.shiftr x 24) 255; Z.land (Z.shiftr x 16) 255;
    Z.land (Z.shiftr x 8) 255; Z.land x 255 ].

(** [ntohl] of the [uint32_t] stored in the first four bytes of [p]. *)
Definition ntohl (p : list Z) : Z :=
  Z.lor (Z.shiftl (nth 0 p 0) 24)
    (Z.lor (Z.shiftl (nth 1 p 0) 16)
       (Z.lor (Z.shiftl (nth 2 p 0) 8) (nth 3 p 0))).

(** [memcmp(a, b, n)] and [strncmp(a, b, n)]; a byte past the end of a list
    reads as 0. *)
Fixpoint memcmp (a b : list Z) (n : nat) : Z :=
  match n with
  | O => 0
  | S n' =>
      let c1 := hd 0 a in
      let c2 := hd 0 b in
      if c1 =? c2 then memcmp (tl a) (tl b) n' else c1 - c2
  end.

Fixpoint strncmp (s1 s2 : list Z) (n : nat) : Z :=
  match n with
  | O => 0
  | S n' =>
      let c1 := hd 0 s1 in
      let c2 := hd 0 s2 in
      if c1 =? c2
      then if c1 =? 0 then 0 else strncmp (tl s1) (tl s2) n'
      else c1 - c2
  end.

Fixpoint strlen (s : list Z) : nat :=
  match s with
  | [] => O
  | c :: s' => if c =? 0 then O else S (strlen s')
  end.

(** The first [strlen(message) + 1] bytes of [message]: the string with its
    terminator. *)
Definition c_str (message : list Z) : list Z :=
  firstn (strlen message + 1) message.

(** [memcpy(buf, data, length data)]. *)
Definition memcpy (buf data : list Z) : list Z :=
  data ++ skipn (length data) buf.

(** [a[i] = v] on an array of [length a] elements; [None] when [i] is not an
    index of the array (undefined behaviour in the source). *)
Definition array_store (a : list Z) (i : nat) (v : Z) : option (list Z) :=
  if (i <? length a)%nat then Some (firstn i a ++ v :: skipn (S i) a) else None.

Definition bytes_of_string (s : String.string) : list Z :=
  map (fun c => Z.of_N (Ascii.N_of_ascii c)) (String.list_ascii_of_string s).

(** ** Constants of [adbconnection.cc] *)

Definition kJdwpHeaderLen : Z := 11.
Definition kJdwpDdmCmdSet : Z := 199.
Definition kJdwpDdmCmd : Z := 1.

Definition kJdwpHandshake : list Z :=
  [74; 68; 87; 80; 45; 72; 97; 110; 100; 115; 104; 97; 107; 101].

Definition kPacketHeaderLen : Z := 11.
Definition kPacketSizeOff : nat := 0.
Definition kPacketIdOff : nat := 4.
Definition kPacketCommandSetOff : nat := 9.
Definition kPacketCommandOff : nat := 10.

Definition kDdmCommandSet : Z := 199.
Definition kDdmChunkCommand : Z := 1.

(** [kJdwpHeaderLen + sizeof(uint32_t) + sizeof(uint32_t)]. *)
Definition kDdmPacketHeaderSize : Z := kJdwpHeaderLen + 4 + 4.

Definition POLLIN : Z := 1.
Definition POLLRDHUP : Z := 8192.

Definition FlagsSet (data flags : Z) : bool := Z.land data flags =? flags.

(** ** Declarations of headers that are not part of the sources

    [adbconnection.cc] uses the control messages of [fd_transport.h]
    (namespace [dt_fd_forward]) and the enumeration [DdmPacketType] of
    [adbconnection.h]; neither header is available, so their values are
    parameters of the development. A message is the content of its [char]
    array, terminating NUL included, so that [sizeof] is [length]. *)

Inductive DdmPacketType := kReply | kCmd.

Class ExternalDecls := {
  kListenStartMessage : list Z;
  kListenEndMessage : list Z;
  kAcceptMessage : list Z;
  kCloseMessage : list Z;
  kHandshakeCompleteMessage : list Z;
  kPerformHandshakeMessage : list Z;
  kSkipHandshakeMessage : list Z;
  (** [static_cast<uint8_t>(packet_type)] *)
  DdmPacketType_uint8 : DdmPacketType -> Z
}.

(** The names the specification gives the tokens, as strings. *)
Module SpecTokens.
Import String.
Local Open Scope string_scope.
Definition listen_start : string := "listen-start".
Definition listen_end : string := "listen-end".
Definition accept : string := "accept".
Definition close : string := "close".
Definition handshake_complete : string := "handshake-complete".
Definition perform_handshake : string := "perform-handshake".
Definition skip_handshake : string := "skip-handshake".
End SpecTokens.

(** An instance for evaluating the model on concrete runs: the tokens carry
    the names the specification gives them, and the flags byte of a reply has
    the top bit set. *)
Definition spec_decls : ExternalDecls := {|
  kListenStartMessage := bytes_of_string SpecTokens.listen_start ++ [0];
  kListenEndMessage := bytes_of_string SpecTokens.listen_end ++ [0];
  kAcceptMessage := bytes_of_string SpecTokens.accept ++ [0];
  kCloseMessage := bytes_of_string SpecTokens.close ++ [0];
  kHandshakeCompleteMessage := bytes_of_string SpecTokens.handshake_complete ++ [0];
  kPerformHandshakeMessage := bytes_of_string SpecTokens.perform_handshake ++ [0];
  kSkipHandshakeMessage := bytes_of_string SpecTokens.skip_handshake ++ [0];
  DdmPacketType_uint8 := fun t => match t with kReply => 128 | kCmd => 0 end
|}.

(** ** The state of the coordinator *)

Record AdbConnectionState := mkState {
  control_ctx_ : bool;                (* the unique_ptr is not null *)
  local_agent_control_sock_ : Z;
  adb_connection_socket_ : Z;
  adb_write_event_fd_ : Z;
  shutting_down_ : bool;
  agent_loaded_ : bool;
  agent_listening_ : bool;
  agent_has_socket_ : bool;
  sent_agent_fds_ : bool;
  performed_handshake_ : bool;
  notified_ddm_active_ : bool;
  next_ddm_id_ : Z
}.

Definition set_control_ctx (v : bool) (s : AdbConnectionState) :=
  mkState v (local_agent_control_sock_ s) (adb_connection_socket_ s)
    (adb_write_event_fd_ s) (shutting_down_ s) (agent_loaded_ s)
    (agent_listening_ s) (agent_has_socket_ s) (sent_agent_fds_ s)
    (performed_handshake_ s) (notified_ddm_active_ s) (next_ddm_id_ s).

Definition set_adb_connection_socket (v : Z) (s : AdbConnectionState) :=
  mkState (control_ctx_ s) (local_agent_control_sock_ s) v
    (adb_write_event_fd_ s) (shutting_down_ s) (agent_loaded_ s)
    (agent_listening_ s) (agent_has_socket_ s) (sent_agent_fds_ s)
    (performed_handshake_ s) (notified_ddm_active_ s) (next_ddm_id_ s).

Definition set_shutting_down (v : bool) (s : AdbConnectionState) :=
  mkState (control_ctx_ s) (local_agent_control_sock_ s)
    (adb_connection_socket_ s) (adb_write_event_fd_ s) v (agent_loaded_ s)
    (agent_listening_ s) (agent_has_socket_ s) (sent_agent_fds_ s)
    (performed_handshake_ s) (notified_ddm_active_ s) (next_ddm_id_ s).

Definition set_agent_loaded (v : bool) (s : AdbConnectionState) :=
  mkState (control_ctx_ s) (local_agent_control_sock_ s)
    (adb_connection_socket_ s) (adb_write_event_fd_ s) (shutting_down_ s) v
    (agent_listening_ s) (agent_has_socket_ s) (sent_agent_fds_ s)
    (performed_handshake_ s) (notified_ddm_active_ s) (next_ddm_id_ s).

Definition set_agent_listening (v : bool) (s : AdbConnectionState) :=
  mkState (control_ctx_ s) (local_agent_control_sock_ s)
    (adb_connection_socket_ s) (adb_write_event_fd_ s) (shutting_down_ s)
    (agent_loaded_ s) v (agent_has_socket_ s) (sent_agent_fds_ s)
    (performed_handshake_ s) (notified_ddm_active_ s) (next_ddm_id_ s).

Definition set_agent_has_socket (v : bool) (s : AdbConnectionState) :=
  mkState (control_ctx_ s) (local_agent_control_sock_ s)
    (adb_connection_socket_ s) (adb_write_event_fd_ s) (shutting_down_ s)
    (agent_loaded_ s) (agent_listening_ s) v (sent_agent_fds_ s)
    (performed_handshake_ s) (notified_ddm_active_ s) (next_ddm_id_ s).

Definition set_sent_agent_fds (v : bool) (s : AdbConnectionState) :=
  mkState (control_ctx_ s) (local_agent_control_sock_ s)
    (adb_connection_socket_ s) (adb_write_event_fd_ s) (shutting_down_ s)
    (agent_loaded_ s) (agent_listening_ s) (agent_has_socket_ s) v
    (performed_handshake_ s) (notified_ddm_active_ s) (next_ddm_id_ s).

Definition set_performed_handshake (v : bool) (s : AdbConnectionState) :=
  mkState (control_ctx_ s) (local_agent_control_sock_ s)
    (adb_connection_socket_ s) (adb_write_event_fd_ s) (shutting_down_ s)
    (agent_loaded_ s) (agent_listening_ s) (agent_has_socket_ s)
    (sent_agent_fds_ s) v (notified_ddm_active_ s) (next_ddm_id_ s).

Definition set_notified_ddm_active (v : bool) (s : AdbConnectionState) :=
  mkState (control_ctx_ s) (local_agent_control_sock_ s)
    (adb_connection_socket_ s) (adb_write_event_fd_ s) (shutting_down_ s)
    (agent_loaded_ s) (agent_listening_ s) (agent_has_socket_ s)
    (sent_agent_fds_ s) (performed_handshake_ s) v (next_ddm_id_ s).

Definition set_next_ddm_id (v : Z) (s : AdbConnectionState) :=
  mkState (control_ctx_ s) (local_agent_control_sock_ s)
    (adb_connection_socket_ s) (adb_write_event_fd_ s) (shutting_down_ s)
    (agent_loaded_ s) (agent_listening_ s) (agent_has_socket_ s)
    (sent_agent_fds_ s) (performed_handshake_ s) (notified_ddm_active_ s) v.

(** The object after the constructor and [StartDebuggerThreads]: the control
    socket pair and the write-lock eventfd exist, no client is connected. *)
Definition started (agent_control_sock write_event_fd : Z) : AdbConnectionState :=
  mkState false agent_control_sock (-1) write_event_fd
    false false false false false false false 1.

(** The coordinator together with the bytes that are readable on
    [adb_connection_socket_] (the receive queue of the debug socket). *)
Record World := mkWorld {
  self : AdbConnectionState;
  adb_rx : list Z
}.

(** ** What the coordinator does to its environment *)

Inductive Event :=
| ScopedEventFdLock_acquire            (* read(adb_write_event_fd_) *)
| ScopedEventFdLock_release            (* write(adb_write_event_fd_) *)
| adb_connection_socket_reset (fd : Z) (* adb_connection_socket_.reset() *)
| new_fd_reset (fd : Z)
| DdmConnected
| DdmDisconnected
| DdmHandleChunk_call (type : Z) (data : list Z)
| send_call (fd : Z) (buf : list Z)
| writev_call (fd : Z) (iov0 iov1 : list Z)
| sendmsg_call (fd : Z) (message : list Z) (read_fd write_fd write_lock_fd : Z)
| AttachAgent_call (ddm_already_active : bool)
| adbconnection_client_new_call
| usleep_call (usec : Z).

(** ** What the environment answers during one iteration of the worker *)

Record Oracle := mkOracle {
  IsJdwpAllowed : bool;
  adbconnection_client_new : bool;          (* a context was returned *)
  adbconnection_client_pollfd : Z;
  adbconnection_client_receive_jdwp_fd : Z;
  poll_res : Z;
  agent_control_sock_revents : Z;
  control_sock_revents : Z;
  adb_socket_revents : Z;
  agent_control_recv : option (list Z);     (* the datagram, None on error *)
  stack_garbage : list Z;                   (* initial content of buf[257] *)
  peek_fails : bool;                        (* recv(..., MSG_PEEK) < 0 *)
  ioctl_fails : bool;                       (* ioctl(..., FIONREAD, ...) < 0 *)
  recv_fails : bool;                        (* recv(...) < 0 *)
  send_res : Z;
  dup_read_fd : Z;
  dup_write_fd : Z;
  dup_write_lock_fd : Z;
  sendmsg_res : Z;
  AttachAgent_ok : bool;                    (* no exception is pending *)
  DdmHandleChunk : option (Z * list Z)      (* Some (reply_type, reply) *)
}.

(** ** The member functions *)

Section Coordinator.
Context {decls : ExternalDecls}.

(** How a member function that contains a [CHECK] ends. *)
Inductive Status := Returned | CheckFailed.

Definition NotifyDdms (active : bool) (s : AdbConnectionState)
  : AdbConnectionState * list Event :=
  (set_notified_ddm_active active s,
   [if active then DdmConnected else DdmDisconnected]).

Definition CloseFds (w : World) : World * list Event :=
  let s := self w in
  let locked :=
    [ScopedEventFdLock_acquire;
     adb_connection_socket_reset (adb_connection_socket_ s);
     ScopedEventFdLock_release] in
  let s := set_adb_connection_socket (-1) s in
  let s := set_performed_handshake false s in
  if negb (agent_loaded_ s) && notified_ddm_active_ s
  then let (s', t) := NotifyDdms false s in (mkWorld s' [], locked ++ t)
  else (mkWorld s [], locked).

Definition NextDdmId (s : AdbConnectionState) : Z * AdbConnectionState :=
  (Z.lor (next_ddm_id_ s) 2147483648,
   set_next_ddm_id (uint32_t (next_ddm_id_ s + 1)) s).

(** The 19 bytes of [pkt] that [SendDdmPacket] assembles. *)
Definition ddm_packet_header (id : Z) (packet_type : DdmPacketType)
    (type : Z) (data : list Z) : list Z :=
  htonl (kDdmPacketHeaderSize + Z.of_nat (length data))
  ++ htonl id
  ++ [DdmPacketType_uint8 packet_type]
  ++ match packet_type with
     | kCmd => [kJdwpDdmCmdSet; kJdwpDdmCmd]
     | kReply => [0; 0]
     end
  ++ htonl type
  ++ htonl (Z.of_nat (length data)).

Definition SendDdmPacket (id : Z) (packet_type : DdmPacketType) (type : Z)
    (data : list Z) (s : AdbConnectionState) : list Event :=
  if (adb_connection_socket_ s =? -1) || negb (performed_handshake_ s)
  then [ScopedEventFdLock_acquire; ScopedEventFdLock_release]
  else [ScopedEventFdLock_acquire;
        writev_call (adb_connection_socket_ s)
          (ddm_packet_header id packet_type type data) data;
        ScopedEventFdLock_release].

Definition PublishDdmData (type : Z) (data : list Z) (s : AdbConnectionState)
  : AdbConnectionState * list Event :=
  let (id, s') := NextDdmId s in
  (s', SendDdmPacket id kCmd type data s').

Definition SendAgentFds (o : Oracle) (require_handshake : bool)
    (s : AdbConnectionState) : Status * AdbConnectionState * list Event :=
  let message :=
    if require_handshake then kPerformHandshakeMessage
    else kSkipHandshakeMessage in
  if dup_read_fd o =? -1 then (CheckFailed, s, [])
  else if dup_write_fd o =? -1 then (CheckFailed, s, [])
  else if dup_write_lock_fd o =? -1 then (CheckFailed, s, [])
  else
    let sent :=
      [sendmsg_call (local_agent_control_sock_ s) (c_str message)
         (dup_read_fd o) (dup_write_fd o) (dup_write_lock_fd o)] in
    if sendmsg_res o <? 0 then (Returned, s, sent)
    else (Returned, set_sent_agent_fds true s, sent).

Definition sizeof_kJdwpHandshake : Z := Z.of_nat (length kJdwpHandshake).

Definition PerformHandshake (o : Oracle) (w : World)
  : Status * World * list Event :=
  let s := self w in
  if performed_handshake_ s then (CheckFailed, w, [])
  else
    let avail :=
      if ioctl_fails o then uint32_t (-1)
      else uint32_t (Z.of_nat (length (adb_rx w))) in
    if ioctl_fails o || (avail <? sizeof_kJdwpHandshake)
    then let (w', t) := CloseFds w in (Returned, w', t)
    else
      let handshake_msg := firstn (length kJdwpHandshake) (adb_rx w) in
      let res := if recv_fails o then -1 else Z.of_nat (length handshake_msg) in
      let w :=
        if recv_fails o then w
        else mkWorld s (skipn (length kJdwpHandshake) (adb_rx w)) in
      if res <? sizeof_kJdwpHandshake
      then let (w', t) := CloseFds w in (Returned, w', t)
      else if negb (strncmp handshake_msg kJdwpHandshake
                      (length kJdwpHandshake) =? 0)
      then let (w', t) := CloseFds w in (Returned, w', t)
      else
        let sent := [send_call (adb_connection_socket_ s) kJdwpHandshake] in
        if send_res o <? sizeof_kJdwpHandshake
        then let (w', t) := CloseFds w in (Returned, w', sent ++ t)
        else (Returned,
              mkWorld (set_performed_handshake true s) (adb_rx w), sent).

Definition AttachJdwpAgent (o : Oracle) (s : AdbConnectionState)
  : AdbConnectionState * list Event :=
  (if AttachAgent_ok o then set_agent_loaded true s else s,
   [AttachAgent_call (notified_ddm_active_ s)]).

Definition ReadUint32AndAdvance (in_ : list Z) : Z * list Z :=
  (ntohl in_, skipn 4 in_).

Definition HandleDataWithoutAgent (o : Oracle) (w : World)
  : Status * World * list Event :=
  let s := self w in
  let rx := adb_rx w in
  if negb (IsJdwpAllowed o) then (CheckFailed, w, [])
  else if negb (performed_handshake_ s) then PerformHandshake o w
  else
    let packet_header := firstn (Z.to_nat kPacketHeaderLen) rx in
    let res := if peek_fails o then -1 else Z.of_nat (length packet_header) in
    if res <=? 0 then let (w', t) := CloseFds w in (Returned, w', t)
    else if res <? kPacketHeaderLen
    then let (s', t) := AttachJdwpAgent o s in (Returned, mkWorld s' rx, t)
    else
      let full_len := ntohl (skipn kPacketSizeOff packet_header) in
      let pkt_id := ntohl (skipn kPacketIdOff packet_header) in
      let pkt_cmd_set := nth kPacketCommandSetOff packet_header 0 in
      let pkt_cmd := nth kPacketCommandOff packet_header 0 in
      if negb (pkt_cmd_set =? kDdmCommandSet)
         || negb (pkt_cmd =? kDdmChunkCommand)
         || (full_len <? kPacketHeaderLen)
      then let (s', t) := AttachJdwpAgent o s in (Returned, mkWorld s' rx, t)
      else if ioctl_fails o
      then let (w', t) := CloseFds w in (Returned, w', t)
      else if uint32_t (Z.of_nat (length rx)) <? full_len
      then let (s', t) := AttachJdwpAgent o s in (Returned, mkWorld s' rx, t)
      else if recv_fails o
      then let (w', t) := CloseFds w in (Returned, w', t)
      else
        let received := firstn (Z.to_nat full_len) rx in
        let full_pkt :=
          received ++ repeat 0 (Z.to_nat full_len - length received) in
        let rx := skipn (Z.to_nat full_len) rx in
        let data_size := full_len - kPacketHeaderLen in
        if data_size <? 4 * 2 then (Returned, mkWorld s rx, [])
        else
          let ddm_data := skipn (Z.to_nat kPacketHeaderLen) full_pkt in
          let (ddm_type, ddm_data) := ReadUint32AndAdvance ddm_data in
          let (ddm_len, ddm_data) := ReadUint32AndAdvance ddm_data in
          if ddm_len >? data_size - 2 * 4 then (Returned, mkWorld s rx, [])
          else
            let (s, notified) :=
              if negb (notified_ddm_active_ s) then NotifyDdms true s
              else (s, []) in
            let called :=
              [DdmHandleChunk_call ddm_type
                 (firstn (Z.to_nat ddm_len) ddm_data)] in
            match DdmHandleChunk o with
            | None => (Returned, mkWorld s rx, notified ++ called)
            | Some (reply_type, reply) =>
                (Returned, mkWorld s rx,
                 notified ++ called
                 ++ SendDdmPacket pkt_id kReply reply_type reply s)
            end.

(** ** The worker: [RunPollLoop] and [SetupAdbConnection] *)

(** How one pass through the body of the inner [while] of [RunPollLoop]
    ends. [Undefined] is a store outside [buf]. *)
Inductive Ctl := Continue | Break | Return | Abort | Undefined.

(** [poll] ignores an entry whose descriptor is negative: its [revents] is 0. *)
Definition poll_revents (fd revents : Z) : Z :=
  if fd <? 0 then 0 else revents.

Definition ctl_of (st : Status) : Ctl :=
  match st with Returned => Continue | CheckFailed => Abort end.

(** [sizeof(buf)] of [char buf[257]]. *)
Definition sizeof_buf : nat := 257.

(** Where [RunPollLoop] stores the terminator after a [recv] of [res] bytes:
    [buf[res + 1] = 0]. *)
Definition terminator_index (res : nat) : nat := (res + 1)%nat.

Definition RunPollLoop_agent_control (o : Oracle) (w : World)
  : Ctl * World * list Event :=
  let s := self w in
  if negb (IsJdwpAllowed o) then (Abort, w, [])
  else
    match agent_control_recv o with
    | None => (Continue, w, [])
    | Some datagram =>
        let buf := firstn sizeof_buf (stack_garbage o ++ repeat 0 sizeof_buf) in
        let received := firstn (sizeof_buf - 1) datagram in
        let res := length received in
        match array_store (memcpy buf received) (terminator_index res) 0 with
        | None => (Undefined, w, [])
        | Some buf =>
            if memcmp kListenStartMessage buf (length kListenStartMessage) =? 0
            then
              let s := set_agent_listening true s in
              if negb (adb_connection_socket_ s =? -1)
              then
                match SendAgentFds o (negb (performed_handshake_ s)) s with
                | (st, s', t) => (ctl_of st, mkWorld s' (adb_rx w), t)
                end
              else (Continue, mkWorld s (adb_rx w), [])
            else if memcmp kListenEndMessage buf (length kListenEndMessage) =? 0
            then (Continue, mkWorld (set_agent_listening false s) (adb_rx w), [])
            else if memcmp kHandshakeCompleteMessage buf
                      (length kHandshakeCompleteMessage) =? 0
            then
              if agent_has_socket_ s
              then (Continue,
                    mkWorld (set_performed_handshake true s) (adb_rx w), [])
              else (Continue, w, [])
            else if memcmp kCloseMessage buf (length kCloseMessage) =? 0
            then
              let (w', t) := CloseFds w in
              (Continue,
               mkWorld (set_agent_has_socket false (self w')) (adb_rx w'), t)
            else if memcmp kAcceptMessage buf (length kAcceptMessage) =? 0
            then
              let s := set_agent_has_socket true s in
              let s := set_sent_agent_fds false s in
              let s := set_performed_handshake false s in
              (Continue, mkWorld s (adb_rx w), [])
            else (Continue, w, [])
        end
    end.

Definition RunPollLoop_control_sock (o : Oracle) (w : World)
  : Ctl * World * list Event :=
  let s := self w in
  if negb (IsJdwpAllowed o)
  then (Break, mkWorld (set_control_ctx false s) (adb_rx w), [])
  else
    let new_fd := adbconnection_client_receive_jdwp_fd o in
    if new_fd =? -1
    then (Break, mkWorld (set_control_ctx false s) (adb_rx w),
          [ScopedEventFdLock_acquire; ScopedEventFdLock_release])
    else if negb (adb_connection_socket_ s =? -1)
    then (Continue, w,
          [ScopedEventFdLock_acquire]
          ++ (if new_fd >=? 0 then [new_fd_reset new_fd] else [])
          ++ [ScopedEventFdLock_release])
    else
      let s := set_adb_connection_socket new_fd s in
      let locked := [ScopedEventFdLock_acquire; ScopedEventFdLock_release] in
      if agent_loaded_ s && agent_listening_ s
      then
        match SendAgentFds o true s with
        | (st, s', t) => (ctl_of st, mkWorld s' [], locked ++ t)
        end
      else (Continue, mkWorld s [], locked).

Definition RunPollLoop_adb_socket (o : Oracle) (w : World)
  : Ctl * World * list Event :=
  let s := self w in
  if negb (IsJdwpAllowed o) then (Abort, w, [])
  else if negb (agent_loaded_ s)
  then
    match HandleDataWithoutAgent o w with
    | (st, w', t) => (ctl_of st, w', t)
    end
  else if agent_listening_ s && negb (sent_agent_fds_ s)
  then
    match SendAgentFds o true s with
    | (st, s', t) => (ctl_of st, mkWorld s' (adb_rx w), t)
    end
  else (Continue, w, []).

(** The body of the inner [while]. *)
Definition RunPollLoop_body (o : Oracle) (w : World)
  : Ctl * World * list Event :=
  let s := self w in
  let agent_control_sock_poll :=
    poll_revents
      (if agent_loaded_ s then local_agent_control_sock_ s else -1)
      (agent_control_sock_revents o) in
  let control_sock_poll :=
    poll_revents
      (if adb_connection_socket_ s =? -1
       then adbconnection_client_pollfd o else -1)
      (control_sock_revents o) in
  let adb_socket_poll :=
    poll_revents
      (if negb (agent_has_socket_ s) && negb (sent_agent_fds_ s)
       then adb_connection_socket_ s else -1)
      (adb_socket_revents o) in
  if poll_res o <? 0 then (Return, w, [])
  else if FlagsSet agent_control_sock_poll POLLIN
  then RunPollLoop_agent_control o w
  else if FlagsSet control_sock_poll POLLIN
  then RunPollLoop_control_sock o w
  else if FlagsSet control_sock_poll POLLRDHUP
  then (Break, mkWorld (set_control_ctx false s) (adb_rx w), [])
  else if FlagsSet adb_socket_poll POLLIN
  then RunPollLoop_adb_socket o w
  else if FlagsSet adb_socket_poll POLLRDHUP
  then
    if negb (IsJdwpAllowed o) then (Abort, w, [])
    else let (w', t) := CloseFds w in (Continue, w', t)
  else (Continue, w, []).

Definition sleep_max_ms : Z := 2 * 1000.

(** [sleep_ms += (sleep_ms >> 1); if (sleep_ms > sleep_max_ms) sleep_ms = sleep_max_ms;] *)
Definition next_sleep_ms (sleep_ms : Z) : Z :=
  let sleep_ms := int32_t (sleep_ms + Z.shiftr sleep_ms 1) in
  if sleep_ms >? sleep_max_ms then sleep_max_ms else sleep_ms.

(** Where the worker thread is in [RunPollLoop]: at the head of the outer
    [while], at the head of the [while] of [SetupAdbConnection] (with its
    local [sleep_ms]), at the head of the inner [while], or gone. *)
Inductive Pc :=
| PcOuter
| PcSetup (sleep_ms : Z)
| PcInner
| PcReturned
| PcAborted
| PcUndefined.

Record Machine := mkMachine {
  pc : Pc;
  world : World
}.

(** One evaluation of a loop condition by the worker, with the body that
    follows it. *)
Definition RunPollLoop_step (o : Oracle) (m : Machine) : Machine * list Event :=
  let w := world m in
  let s := self w in
  match pc m with
  | PcOuter =>
      if shutting_down_ s then (mkMachine PcReturned w, [])
      else if negb (control_ctx_ s) then (mkMachine (PcSetup 500) w, [])
      else (mkMachine PcInner w, [])
  | PcSetup sleep_ms =>
      if shutting_down_ s then (mkMachine PcReturned w, [])
      else if adbconnection_client_new o
      then (mkMachine PcInner (mkWorld (set_control_ctx true s) (adb_rx w)),
            [adbconnection_client_new_call])
      else (mkMachine (PcSetup (next_sleep_ms sleep_ms)) w,
            [adbconnection_client_new_call;
             usleep_call (int32_t (sleep_ms * 1000))])
  | PcInner =>
      if negb (shutting_down_ s) && control_ctx_ s
      then
        match RunPollLoop_body o w with
        | (Continue, w', t) => (mkMachine PcInner w', t)
        | (Break, w', t) => (mkMachine PcOuter w', t)
        | (Return, w', t) => (mkMachine PcReturned w', t)
        | (Abort, w', t) => (mkMachine PcAborted w', t)
        | (Undefined, w', t) => (mkMachine PcUndefined w', t)
        end
      else (mkMachine PcOuter w, [])
  | PcReturned | PcAborted | PcUndefined => (m, [])
  end.

(** What happens to the coordinator: the worker moves, another thread calls
    [StopDebuggerThreads] or [PublishDdmData], or the debugger writes to the
    debug socket. *)
Inductive Input :=
| worker (o : Oracle)
| StopDebuggerThreads
| PublishDdmData_call (type : Z) (data : list Z)
| peer_sends (bytes : list Z).

Definition step (i : Input) (m : Machine) : Machine * list Event :=
  let w := world m in
  match i with
  | worker o => RunPollLoop_step o m
  | StopDebuggerThreads =>
      (mkMachine (pc m) (mkWorld (set_shutting_down true (self w)) (adb_rx w)),
       [])
  | PublishDdmData_call type data =>
      let (s', t) := PublishDdmData type data (self w) in
      (mkMachine (pc m) (mkWorld s' (adb_rx w)), t)
  | peer_sends bytes =>
      if adb_connection_socket_ (self w) <? 0 then (m, [])
      else (mkMachine (pc m) (mkWorld (self w) (adb_rx w ++ bytes)), [])
  end.

Fixpoint run (inputs : list Input) (m : Machine) : Machine * list Event :=
  match inputs with
  | [] => (m, [])
  | i :: inputs' =>
      let (m', t) := step i m in
      let (m'', t') := run inputs' m' in
      (m'', t ++ t')
  end.

(** The worker thread enters [RunPollLoop] on a freshly started object. *)
Definition boot (agent_control_sock write_event_fd : Z) : Machine :=
  mkMachine PcOuter (mkWorld (started agent_control_sock write_event_fd) []).

End Coordinator.

(** ** Observations on traces and on packets *)

(** The DDM notifications of a trace, in order: [true] for [DdmConnected]
    (monitor active), [false] for [DdmDisconnected] (monitor inactive). *)
Fixpoint notifications (t : list Event) : list bool :=
  match t with
  | [] => []
  | DdmConnected :: t' => true :: notifications t'
  | DdmDisconnected :: t' => false :: notifications t'
  | _ :: t' => notifications t'
  end.

(** The notifications alternate, the first one being [expect_active]. *)
Fixpoint alternates (expect_active : bool) (l : list bool) : bool :=
  match l with
  | [] => true
  | x :: l' => Bool.eqb x expect_active && alternates (negb expect_active) l'
  end.

(** What a trace writes to a socket with [send] or [writev]: the descriptor
    and the bytes of each call. *)
Fixpoint written (t : list Event) : list (Z * list Z) :=
  match t with
  | [] => []
  | send_call fd buf :: t' => (fd, buf) :: written t'
  | writev_call fd iov0 iov1 :: t' => (fd, iov0 ++ iov1) :: written t'
  | _ :: t' => written t'
  end.

(** The calls of the runtime's [AttachAgent] in a trace. *)
Fixpoint attaches (t : list Event) : nat :=
  match t with
  | [] => O
  | AttachAgent_call _ :: t' => S (attaches t')
  | _ :: t' => attaches t'
  end.

(** The messages handed to [sendmsg] with the descriptors, in order. *)
Fixpoint handoffs (t : list Event) : list (list Z) :=
  match t with
  | [] => []
  | sendmsg_call _ message _ _ _ :: t' => message :: handoffs t'
  | _ :: t' => handoffs t'
  end.

(** The resets of [adb_connection_socket_] and the calls of the DDM handler
    in a trace. *)
Fixpoint socket_resets (t : list Event) : nat :=
  match t with
  | [] => O
  | adb_connection_socket_reset _ :: t' => S (socket_resets t')
  | _ :: t' => socket_resets t'
  end.

Fixpoint chunk_calls (t : list Event) : nat :=
  match t with
  | [] => O
  | DdmHandleChunk_call _ _ :: t' => S (chunk_calls t')
  | _ :: t' => chunk_calls t'
  end.

(** The fields of a JDWP packet at the front of a byte stream, as
    [HandleDataWithoutAgent] reads them. *)
Definition packet_full_len (rx : list Z) : Z := ntohl (skipn kPacketSizeOff rx).
Definition packet_id (rx : list Z) : Z := ntohl (skipn kPacketIdOff rx).
Definition packet_cmd_set (rx : list Z) : Z := nth kPacketCommandSetOff rx 0.
Definition packet_cmd (rx : list Z) : Z := nth kPacketCommandOff rx 0.
(** The length that the DDM chunk header declares, at offset 11 + 4. *)
Definition packet_ddm_len (rx : list Z) : Z := ntohl (skipn 15 rx).

(** A DDM command packet as a debugger sends it: the 11-byte JDWP header with
    the DDM command set and command, then the chunk type, the chunk length
    and the chunk. *)
Definition ddm_command (id flags type : Z) (data : list Z) : list Z :=
  htonl (kPacketHeaderLen + 8 + Z.of_nat (length data))
  ++ htonl id
  ++ [flags; kDdmCommandSet; kDdmChunkCommand]
  ++ htonl type
  ++ htonl (Z.of_nat (length data))
  ++ data.

(** The reconnection delays of [SetupAdbConnection], in milliseconds: what the
    code computes, and what a delay that doubles would be. *)
Definition backoff_schedule (n : nat) : Z := nth n [500; 750; 1125; 1687] 2000.
Definition doubling_schedule (n : nat) : Z := Z.min (500 * 2 ^ Z.of_nat n) 2000.

(** What [n] failed connections in a row do: a call of the client library
    and a sleep, [n] times. *)
Definition setup_trace (n : nat) : list Event :=
  flat_map
    (fun k => [adbconnection_client_new_call;
               usleep_call (backoff_schedule k * 1000)])
    (seq 0 n).

(** ** What one step may do to the flags

    [s] is the state before a step, [s'] the state after it and [t] the
    trace of the step. *)

(** A step sends at most one DDM notification: monitor-active only when
    [notified_ddm_active_] is false, with no agent loaded and in a step that
    hands a packet to the DDM handler; monitor-inactive only when it is true,
    with no agent loaded and in a step that resets the debug socket. *)
Definition notif_step (s s' : AdbConnectionState) (t : list Event) : Prop :=
  (notifications t = [] /\ notified_ddm_active_ s' = notified_ddm_active_ s)
  \/ (notifications t = [true] /\ notified_ddm_active_ s = false
      /\ notified_ddm_active_ s' = true /\ agent_loaded_ s = false
      /\ chunk_calls t = 1%nat)
  \/ (notifications t = [false] /\ notified_ddm_active_ s = true
      /\ notified_ddm_active_ s' = false /\ agent_loaded_ s = false
      /\ socket_resets t = 1%nat).



(** ** Concrete environments, for evaluating the model *)

(** An oracle in which nothing fails and nothing is ready. *)
Definition calm : Oracle :=
  mkOracle true true 5 (-1) 0 0 0 0 None [] false false false 14 10 11 12 0
    true None.

Definition connect_fails : Oracle :=
  mkOracle true false 5 (-1) 0 0 0 0 None [] false false false 14 10 11 12 0
    true None.

(** adbd hands over a new debugger connection [fd]. *)
Definition daemon_accepts (fd : Z) : Oracle :=
  mkOracle true true 5 fd 1 0 POLLIN 0 None [] false false false 14 10 11 12 0
    true None.

(** The debug socket is readable; the DDM handler would answer [reply]. *)
Definition adb_readable (reply : option (Z * list Z)) : Oracle :=
  mkOracle true true 5 (-1) 1 0 0 POLLIN None [] false false false 14 10 11 12
    0 true reply.

(** The agent sent [datagram]; [sendmsg] would return [res]. *)
Definition agent_says (datagram : list Z) (res : Z) : Oracle :=
  mkOracle true true 5 (-1) 1 POLLIN 0 0 (Some datagram) [] false false false
    14 10 11 12 res true None.

(** The debug socket is readable and [sendmsg] would return [res]. *)
Definition adb_readable_sendmsg (res : Z) : Oracle :=
  mkOracle true true 5 (-1) 1 0 0 POLLIN None [] false false false 14 10 11 12
    res true None.

(** A JDWP command that is not DDM: VirtualMachine.Version, id 1. *)
Definition version_command : list Z := [0; 0; 0; 11; 0; 0; 0; 1; 0; 1; 1].

(** A debugger connects, shakes hands and sends a JDWP command, which makes
    the coordinator load the agent. *)
Definition debugger_attaches : list Input :=
  [ worker calm; worker calm;
    worker (daemon_accepts 7);
    peer_sends kJdwpHandshake;
    worker (adb_readable None);
    peer_sends version_command;
    worker (adb_readable None) ].

(** ... then the agent starts listening and is handed the descriptors. *)
Definition handoff_on_listen : list Input :=
  debugger_attaches
  ++ [ worker (agent_says (kListenStartMessage (ExternalDecls := spec_decls)) 0) ].


(** The agent starts listening but [sendmsg] fails; the transfer is retried
    when the debug socket is readable again. *)
Definition failed_handoff : list Input :=
  debugger_attaches
  ++ [ worker (agent_says (kListenStartMessage (ExternalDecls := spec_decls)) (-1)) ].

Definition retried_handoff : list Input :=
  failed_handoff ++ [ worker (adb_readable_sendmsg 0) ].

(** The debugger closed the debug socket. *)
Definition adb_hangup : Oracle :=
  mkOracle true true 5 (-1) 1 0 0 POLLRDHUP None [] false false false 14 10 11
    12 0 true None.

(** The DDM chunk HELO (type 1212501071) in a command with id 2. *)
Definition helo : list Z := ddm_command 2 0 1212501071 [0; 0; 0; 1].

(** A monitor connects and sends two chunks, disconnects, and another one
    connects and sends a chunk; no agent is ever loaded. *)
Definition monitor_sessions : list Input :=
  [ worker calm; worker calm;
    worker (daemon_accepts 7);
    peer_sends kJdwpHandshake;
    worker (adb_readable None);
    peer_sends helo;
    worker (adb_readable (Some (1212501071, [1; 2; 3])));
    peer_sends helo;
    worker (adb_readable None);
    worker adb_hangup;
    worker (daemon_accepts 8);
    peer_sends kJdwpHandshake;
    worker (adb_readable None);
    peer_sends helo;
    worker (adb_readable None) ].

(** A datagram that fills the 256 bytes asked from [recv]. *)
Definition long_datagram : list Z := repeat 65 256.

(** A world in packet phase on descriptor 7 with [rx] readable. *)
Definition packet_phase (rx : list Z) : World :=
  mkWorld (mkState true 3 7 4 false false false false false true false 1) rx.

(** A world in handshake phase on descriptor 7 with [rx] readable. *)
Definition handshake_phase (rx : list Z) : World :=
  mkWorld (mkState true 3 7 4 false false false false false false false 1) rx.

(** ** Validation of the JDWP options *)

(** The literals that [ValidateJdwpOptions] looks for. *)
Module OptionLiterals.
Import String.
Local Open Scope string_scope.
Definition server_n : string := "server=n".
Definition suspend_y : string := "suspend=y".
Definition suspending : string := "transport=dt_socket,suspend=y".
End OptionLiterals.

(** [s.compare(0, arg.size(), arg) == 0]: [arg] is found at the front of [s]. *)
Fixpoint starts_with (s arg : list Z) {struct arg} : bool :=
  match arg, s with
  | [], _ => true
  | _ :: _, [] => false
  | a :: arg', c :: s' => (a =? c) && starts_with s' arg'
  end.

(** [s.find(arg)]: the first position at which [arg] occurs in [s], [None]
    for [std::string::npos]. *)
Fixpoint string_find (s arg : list Z) : option nat :=
  match s with
  | [] => if starts_with [] arg then Some O else None
  | _ :: s' =>
      if starts_with s arg then Some O
      else option_map S (string_find s' arg)
  end.

Definition ContainsArgument (opts arg : list Z) : bool :=
  match string_find opts arg with
  | Some _ => true
  | None => false
  end.

Definition ValidateJdwpOptions (opts : list Z) : bool :=
  let res := true in
  let res :=
    if ContainsArgument opts (bytes_of_string OptionLiterals.server_n)
    then false else res in
  let res :=
    if ContainsArgument opts (bytes_of_string OptionLiterals.suspend_y)
    then false else res in
  res.

(** ** Further observations on traces *)

(** The write lock is used properly along a trace that starts with the lock
    [held] or not: it is not taken while held nor released while free, the
    debug socket is reset, a refused descriptor closed and a packet written
    with [writev] only while it is held, and it is free at the end. *)
Fixpoint lock_discipline (held : bool) (t : list Event) : bool :=
  match t with
  | [] => negb held
  | ScopedEventFdLock_acquire :: t' => negb held && lock_discipline true t'
  | ScopedEventFdLock_release :: t' => held && lock_discipline false t'
  | adb_connection_socket_reset _ :: t' => held && lock_discipline held t'
  | new_fd_reset _ :: t' => held && lock_discipline held t'
  | writev_call _ _ _ :: t' => held && lock_discipline held t'
  | _ :: t' => lock_discipline held t'
  end.

(** The descriptors given to [adb_connection_socket_.reset()], and the
    connections that were received and dropped. *)
Fixpoint closed_sockets (t : list Event) : list Z :=
  match t with
  | [] => []
  | adb_connection_socket_reset fd :: t' => fd :: closed_sockets t'
  | _ :: t' => closed_sockets t'
  end.

Fixpoint dropped_connections (t : list Event) : list Z :=
  match t with
  | [] => []
  | new_fd_reset fd :: t' => fd :: dropped_connections t'
  | _ :: t' => dropped_connections t'
  end.

(** The arguments of [usleep], in microseconds. *)
Fixpoint sleeps (t : list Event) : list Z :=
  match t with
  | [] => []
  | usleep_call usec :: t' => usec :: sleeps t'
  | _ :: t' => sleeps t'
  end.

(** What a step may do to [adb_connection_socket_]: keep it, reset it (the
    descriptor reset is the one that was stored), or store a descriptor when
    none was stored. *)
Definition ownership_step (s s' : AdbConnectionState) (t : list Event) : Prop :=
  (adb_connection_socket_ s' = adb_connection_socket_ s
   /\ closed_sockets t = [])
  \/ (adb_connection_socket_ s' = -1
      /\ closed_sockets t = [adb_connection_socket_ s])
  \/ (adb_connection_socket_ s = -1
      /\ adb_connection_socket_ s' <> -1
      /\ closed_sockets t = []).

(** The worker thread has left [RunPollLoop]. *)
Definition terminated (p : Pc) : bool :=
  match p with
  | PcReturned | PcAborted | PcUndefined => true
  | _ => false
  end.

(** The local [sleep_ms] of [SetupAdbConnection] is within its bounds. *)
Definition sleep_ms_in_bounds (p : Pc) : Prop :=
  match p with
  | PcSetup sleep_ms => 500 <= sleep_ms <= sleep_max_ms
  | _ => True
  end.

(** [buf] as [RunPollLoop] compares it with the messages, after a [recv] of
    [datagram] and the store of the terminator; [None] when that store is
    outside [buf]. *)
Definition agent_control_buf (o : Oracle) (datagram : list Z)
  : option (list Z) :=
  let buf := firstn sizeof_buf (stack_garbage o ++ repeat 0 sizeof_buf) in
  let received := firstn (sizeof_buf - 1) datagram in
  array_store (memcpy buf received) (terminator_index (length received)) 0.

(** A debugger connects to a coordinator, shakes hands, sends a chunk and
    hangs up. *)
Definition one_monitor_session : list Input := firstn 10 monitor_sessions.

(** * Properties *)

(** ** Integers and buffers *)

Lemma ntohl_htonl (x : Z) (rest : list Z) :
  0 <= x < 2 ^ 32 -> ntohl (htonl x ++ rest) = x.
Proof.
  intros Hx. unfold ntohl, htonl. cbn [nth app].
  assert (Hhi : forall n, 32 <= n -> Z.testbit x n = false).
  { intros n Hn. destruct (Z.eq_dec x 0) as [->|Hne]; [apply Z.bits_0|].
    assert (Z.log2 x < 32) by (apply Z.log2_lt_pow2; lia).
    apply Z.bits_above_log2; lia. }
  apply Z.bits_inj'. intros n Hn.
  rewrite !Z.lor_spec, !Z.shiftl_spec by lia.
  change 255 with (Z.ones 8).
  destruct (Z_lt_dec n 8);
    [|destruct (Z_lt_dec n 16);
      [|destruct (Z_lt_dec n 24); [|destruct (Z_lt_dec n 32)]]].
  all: repeat match goal with
       | |- context [Z.testbit (Z.land ?a (Z.ones 8)) ?k] =>
           first [ rewrite (Z.testbit_neg_r (Z.land a (Z.ones 8)) k) by lia
                 | rewrite (Z.land_spec a (Z.ones 8) k), Z.shiftr_spec by lia
                 | rewrite (Z.land_spec a (Z.ones 8) k) ]
       end.
  all: repeat match goal with
       | |- context [Z.testbit (Z.ones 8) ?k] =>
           first [ rewrite (Z.ones_spec_low 8 k) by lia
                 | rewrite (Z.ones_spec_high 8 k) by lia
                 | rewrite (Z.testbit_neg_r _ k) by lia ]
       end.
  all: rewrite ?andb_false_r, ?andb_true_r, ?orb_false_r, ?orb_false_l.
  all: try (f_equal; lia).
  all: try (symmetry; apply Hhi; lia).
Qed.

Lemma length_htonl (x : Z) : length (htonl x) = 4%nat.
Proof. reflexivity. Qed.

Lemma uint32_t_small (x : Z) : 0 <= x < 2 ^ 32 -> uint32_t x = x.
Proof. intros H. unfold uint32_t. apply Z.mod_small. exact H. Qed.



(** ** [SetupAdbConnection]: the delays *)

Lemma next_sleep_ms_schedule (k : nat) :
  next_sleep_ms (backoff_schedule k) = backoff_schedule (S k).
Proof.
  do 5 (destruct k as [|k]; [reflexivity|]). reflexivity.
Qed.

Lemma usleep_schedule (k : nat) :
  int32_t (backoff_schedule k * 1000) = backoff_schedule k * 1000.
Proof.
  do 5 (destruct k as [|k]; [reflexivity|]). reflexivity.
Qed.

Lemma setup_trace_S (n : nat) :
  setup_trace (S n) =
  setup_trace n
  ++ [adbconnection_client_new_call; usleep_call (backoff_schedule n * 1000)].
Proof.
  unfold setup_trace. rewrite seq_S, flat_map_app. cbn [flat_map Nat.add].
  rewrite app_nil_r. reflexivity.
Qed.

Section Properties.
Context {decls : ExternalDecls}.

Lemma run_app (i1 i2 : list Input) (m : Machine) :
  run (i1 ++ i2) m =
  let (m1, t1) := run i1 m in
  let (m2, t2) := run i2 m1 in
  (m2, t1 ++ t2).
Proof.
  revert m. induction i1 as [|i i1 IH]; intros m; cbn [run app].
  - destruct (run i2 m). reflexivity.
  - destruct (step i m) as [m' t]. rewrite IH.
    destruct (run i1 m') as [m1 t1]. destruct (run i2 m1) as [m2 t2].
    rewrite app_assoc. reflexivity.
Qed.

(** The retry loop of [SetupAdbConnection] from its [k]-th failure on. *)
Lemma setup_retries (os : list Oracle) (w : World) (k : nat) :
  shutting_down_ (self w) = false ->
  Forall (fun o => adbconnection_client_new o = false) os ->
  run (map worker os) (mkMachine (PcSetup (backoff_schedule k)) w) =
  (mkMachine (PcSetup (backoff_schedule (k + length os))) w,
   flat_map
     (fun j => [adbconnection_client_new_call;
                usleep_call (backoff_schedule j * 1000)])
     (seq k (length os))).
Proof.
  intros Hs Hos. revert k.
  induction Hos as [|o os Ho _ IH]; intros k.
  - cbn. rewrite Nat.add_0_r. reflexivity.
  - cbn [map run step length seq flat_map].
    unfold RunPollLoop_step. cbn [pc world]. rewrite Hs, Ho.
    rewrite next_sleep_ms_schedule, usleep_schedule, IH.
    replace (S k + length os)%nat with (k + S (length os))%nat by lia.
    reflexivity.
Qed.

(** C2 (as the code has it): while [adbconnection_client_new] keeps failing
    and [shutting_down_] stays false, [SetupAdbConnection] sleeps 500 ms
    before the first retry, then half as long again each time (750, 1125,
    1687 ms), and 2000 ms from the fifth failure on; at the first evaluation
    of its loop condition that finds [shutting_down_] set it returns, without
    calling the client library or sleeping again, and [RunPollLoop] returns
    with it. *)
Theorem C2_backoff_schedule (os : list Oracle) (w : World) (sleep_ms : Z)
    (o : Oracle) :
  (shutting_down_ (self w) = false ->
   Forall (fun o => adbconnection_client_new o = false) os ->
   run (map worker os) (mkMachine (PcSetup 500) w) =
   (mkMachine (PcSetup (backoff_schedule (length os))) w,
    setup_trace (length os)))
  /\ (shutting_down_ (self w) = true ->
      RunPollLoop_step o (mkMachine (PcSetup sleep_ms) w) =
      (mkMachine PcReturned w, [])).
Proof.
  split.
  - intros Hs Hos. exact (setup_retries os w 0 Hs Hos).
  - intros Hs. unfold RunPollLoop_step. cbn [pc world]. rewrite Hs.
    reflexivity.
Qed.

(** ** [CloseFds] *)

Lemma CloseFds_closes (w : World) :
  adb_connection_socket_ (self (fst (CloseFds w))) = -1
  /\ performed_handshake_ (self (fst (CloseFds w))) = false.
Proof.
  destruct w as [s rx]. unfold CloseFds, NotifyDdms. cbn [self].
  destruct (negb _ && _); split; reflexivity.
Qed.

(** C8: [CloseFds] leaves [adb_connection_socket_] at -1 and
    [performed_handshake_] false; it resets the socket between taking and
    releasing the write lock; and it reports the monitor inactive exactly
    when the agent is not loaded and the monitor had been reported active. *)
Theorem C8_CloseFds (w : World) :
  adb_connection_socket_ (self (fst (CloseFds w))) = -1
  /\ performed_handshake_ (self (fst (CloseFds w))) = false
  /\ snd (CloseFds w) =
     [ScopedEventFdLock_acquire;
      adb_connection_socket_reset (adb_connection_socket_ (self w));
      ScopedEventFdLock_release]
     ++ (if negb (agent_loaded_ (self w)) && notified_ddm_active_ (self w)
         then [DdmDisconnected] else [])
  /\ (In DdmDisconnected (snd (CloseFds w)) <->
      agent_loaded_ (self w) = false /\ notified_ddm_active_ (self w) = true).
Proof.
  destruct w as [s rx]. destruct s. unfold CloseFds. cbn.
  destruct agent_loaded_0, notified_ddm_active_0; cbn;
    (split; [reflexivity|split; [reflexivity|split; [reflexivity|]]]);
    (split;
     [ intros Hin; repeat (destruct Hin as [Hin|Hin]; try discriminate Hin);
       try contradiction; split; reflexivity
     | intros [Hl Hn]; try discriminate Hl; try discriminate Hn; tauto ]).
Qed.

(** ** The terminator of the agent's message *)

Lemma terminator_in_bounds (res : nat) :
  (res < 256)%nat -> (terminator_index res <? sizeof_buf)%nat = true.
Proof.
  intros H. apply Nat.ltb_lt. unfold terminator_index, sizeof_buf. lia.
Qed.

Lemma agent_control_long_datagram (o : Oracle) (w : World) (datagram : list Z) :
  IsJdwpAllowed o = true ->
  agent_control_recv o = Some datagram ->
  (256 <= length datagram)%nat ->
  RunPollLoop_agent_control o w = (Undefined, w, []).
Proof.
  intros Ha Hr Hl. unfold RunPollLoop_agent_control. rewrite Ha, Hr.
  cbn [negb].
  assert (Hlen : length (firstn (sizeof_buf - 1) datagram) = 256%nat).
  { rewrite length_firstn. unfold sizeof_buf. lia. }
  unfold array_store. rewrite Hlen.
  assert (Hb : length
                 (memcpy (firstn sizeof_buf (stack_garbage o ++ repeat 0 sizeof_buf))
                    (firstn (sizeof_buf - 1) datagram)) = 257%nat).
  { unfold memcpy. rewrite length_app, Hlen, length_skipn, length_firstn,
      length_app, repeat_length. unfold sizeof_buf. lia. }
  rewrite Hb. reflexivity.
Qed.

(** C10 (the code at the failing input): when [recv] fills the 256 bytes it
    was given, the terminator goes to [buf[257]], which is not an element of
    [char buf[257]]; the store is outside the array. *)
Theorem C10_terminator_past_the_end :
  terminator_index 256 = sizeof_buf
  /\ array_store (repeat 0 sizeof_buf) (terminator_index 256) 0 = None
  /\ fst (fst (RunPollLoop_agent_control (agent_says long_datagram 0)
                 (packet_phase []))) = Undefined.
Proof.
  split; [reflexivity|]. split; [reflexivity|].
  rewrite (agent_control_long_datagram (agent_says long_datagram 0)
             (packet_phase []) long_datagram); reflexivity.
Qed.

End Properties.

(** ** The worker, one step at a time *)

Ltac unfold_worker :=
  unfold step, RunPollLoop_step, RunPollLoop_body, RunPollLoop_agent_control,
    RunPollLoop_control_sock, RunPollLoop_adb_socket, HandleDataWithoutAgent,
    PerformHandshake, CloseFds, SendAgentFds, AttachJdwpAgent, NotifyDdms,
    PublishDdmData, NextDdmId, SendDdmPacket, ReadUint32AndAdvance, ctl_of.

Ltac simpl_fields :=
  cbn [fst snd self adb_rx pc world
       control_ctx_ local_agent_control_sock_ adb_connection_socket_
       adb_write_event_fd_ shutting_down_ agent_loaded_ agent_listening_
       agent_has_socket_ sent_agent_fds_ performed_handshake_
       notified_ddm_active_ next_ddm_id_
       set_control_ctx set_adb_connection_socket set_shutting_down
       set_agent_loaded set_agent_listening set_agent_has_socket
       set_sent_agent_fds set_performed_handshake
       set_notified_ddm_active set_next_ddm_id].

(** Case analysis on every condition the code tests, innermost first. *)
Ltac break_conds :=
  repeat (simpl_fields;
          match goal with
          | |- context [match ?c with _ => _ end] =>
              lazymatch c with
              | context [match _ with _ => _ end] => fail
              | _ => destruct c eqn:?
              end
          end).

Lemma poll_POLLIN_fd (fd revents : Z) :
  FlagsSet (poll_revents fd revents) POLLIN = true -> (fd =? -1) = false.
Proof.
  unfold poll_revents. destruct (Z.ltb_spec fd 0) as [Hlt|Hge].
  - cbn. discriminate.
  - intros _. apply Z.eqb_neq. lia.
Qed.

Ltac bool_hyps :=
  repeat match goal with
         | H : _ && _ = true |- _ => apply andb_true_iff in H; destruct H
         | H : _ || _ = false |- _ => apply orb_false_iff in H; destruct H
         | H : negb _ = true |- _ => apply negb_true_iff in H
         | H : negb _ = false |- _ => apply negb_false_iff in H
         | H : FlagsSet (poll_revents _ _) POLLIN = true |- _ =>
             apply poll_POLLIN_fd in H
         end.

Section Steps.
Context {decls : ExternalDecls}.

Lemma step_notifications (i : Input) (m : Machine) :
  notif_step (self (world m)) (self (world (fst (step i m)))) (snd (step i m)).
Proof.
  destruct m as [p [s rx]]. destruct s.
  unfold_worker. destruct i; break_conds.
  all: unfold notif_step; cbn.
  all: try (left; split; reflexivity).
  all: bool_hyps; subst.
  all: try (right; left; repeat split; reflexivity).
  all: try (right; right; repeat split; reflexivity).
  all: try discriminate.
  all: exfalso; cbn in *; congruence.
Qed.




End Steps.

(** ** The worker over whole runs *)

Lemma notifications_app (t1 t2 : list Event) :
  notifications (t1 ++ t2) = notifications t1 ++ notifications t2.
Proof.
  induction t1 as [|e t1 IH]; [reflexivity|].
  destruct e; cbn [app notifications]; rewrite IH; reflexivity.
Qed.

Lemma last_cons {A : Type} (x d : A) (l : list A) :
  last (x :: l) d = last l x.
Proof.
  revert x d. induction l as [|y l IH]; intros x d; [reflexivity|].
  change (last (x :: y :: l) d) with (last (y :: l) d).
  rewrite (IH y d), (IH y x). reflexivity.
Qed.

Section Runs.
Context {decls : ExternalDecls}.

(** Along any run from any state, the notifications alternate, starting with
    the one that [notified_ddm_active_] does not record yet, and the flag
    always records the last notification sent. *)
Lemma run_notifications (inputs : list Input) (m : Machine) :
  alternates (negb (notified_ddm_active_ (self (world m))))
    (notifications (snd (run inputs m))) = true
  /\ notified_ddm_active_ (self (world (fst (run inputs m)))) =
     last (notifications (snd (run inputs m)))
       (notified_ddm_active_ (self (world m))).
Proof.
  revert m. induction inputs as [|i inputs IH]; intros m.
  - cbn. split; reflexivity.
  - cbn [run]. pose proof (step_notifications i m) as Hstep.
    destruct (step i m) as [m' t]. specialize (IH m').
    destruct (run inputs m') as [m'' t']. cbn [fst snd] in *.
    rewrite notifications_app.
    destruct IH as [IHa IHl].
    destruct Hstep as [[Hn Hf]|[(Hn & Hf & Hf' & _)|(Hn & Hf & Hf' & _)]];
      rewrite Hn; cbn [app].
    + rewrite <- Hf. split; assumption.
    + rewrite Hf' in IHa, IHl. rewrite Hf. cbn [alternates negb Bool.eqb andb].
      rewrite last_cons. split; assumption.
    + rewrite Hf' in IHa, IHl. rewrite Hf. cbn [alternates negb Bool.eqb andb].
      rewrite last_cons. split; assumption.
Qed.

(** C9: from the start of the worker on, the DDM notifications alternate and
    the first one is monitor-active; [notified_ddm_active_] records the last
    one sent; and whatever happens next sends at most one notification:
    monitor-active only with the flag false, no agent loaded and a packet
    handed to the DDM handler, monitor-inactive only with the flag true, no
    agent loaded and the debug socket reset. *)
Theorem C9_notifications_alternate (inputs : list Input) (i : Input)
    (agent_control_sock write_event_fd : Z) :
  let m := fst (run inputs (boot agent_control_sock write_event_fd)) in
  let t := snd (run inputs (boot agent_control_sock write_event_fd)) in
  alternates true (notifications t) = true
  /\ notified_ddm_active_ (self (world m)) = last (notifications t) false
  /\ notif_step (self (world m)) (self (world (fst (step i m))))
       (snd (step i m)).
Proof.
  cbv zeta.
  destruct (run_notifications inputs (boot agent_control_sock write_event_fd))
    as [Ha Hl].
  split; [exact Ha|]. split; [exact Hl|]. apply step_notifications.
Qed.



End Runs.

(** ** Local protocol handling *)



Section LocalHandling.
Context {decls : ExternalDecls}.

End LocalHandling.

(** ** Packet phase *)

Lemma ntohl_ext (a b : list Z) :
  (forall k, (k < 4)%nat -> nth k a 0 = nth k b 0) -> ntohl a = ntohl b.
Proof.
  intros H. unfold ntohl.
  rewrite (H 0%nat), (H 1%nat), (H 2%nat), (H 3%nat) by lia. reflexivity.
Qed.

(** Reading a 32-bit field at offset [i] of the first [n] bytes of [l],
    zero-padded or not, reads it in [l] when the field lies within them. *)
Lemma ntohl_skipn_firstn (i n : nat) (l pad : list Z) :
  (i + 4 <= n)%nat -> (n <= length l)%nat ->
  ntohl (skipn i (firstn n l ++ pad)) = ntohl (skipn i l).
Proof.
  intros Hi Hn. apply ntohl_ext. intros k Hk.
  rewrite !nth_skipn, app_nth1 by (rewrite length_firstn; lia).
  rewrite nth_firstn.
  destruct (Nat.ltb_spec (i + k) n); [reflexivity|lia].
Qed.

Lemma nth_header (k : nat) (rx : list Z) :
  (k < 11)%nat -> nth k (firstn 11 rx) 0 = nth k rx 0.
Proof.
  intros Hk. rewrite nth_firstn.
  destruct (Nat.ltb_spec k 11); [reflexivity|lia].
Qed.

Lemma ntohl_header (i : nat) (rx : list Z) :
  (i + 4 <= 11)%nat -> (11 <= length rx)%nat ->
  ntohl (skipn i (firstn 11 rx)) = ntohl (skipn i rx).
Proof.
  intros Hi Hn. rewrite <- (app_nil_r (firstn 11 rx)).
  apply ntohl_skipn_firstn; assumption.
Qed.

Section PacketPhase.
Context {decls : ExternalDecls}.

(** [HandleDataWithoutAgent] in packet phase once the whole header could be
    peeked, in terms of the fields of the packet at the front of the stream. *)
Lemma HandleDataWithoutAgent_header (o : Oracle) (s : AdbConnectionState)
    (rx : list Z) :
  IsJdwpAllowed o = true -> performed_handshake_ s = true ->
  peek_fails o = false -> (11 <= length rx)%nat ->
  HandleDataWithoutAgent o (mkWorld s rx) =
  if negb (packet_cmd_set rx =? kDdmCommandSet)
     || negb (packet_cmd rx =? kDdmChunkCommand)
     || (packet_full_len rx <? kPacketHeaderLen)
  then (Returned, mkWorld (fst (AttachJdwpAgent o s)) rx,
        snd (AttachJdwpAgent o s))
  else if ioctl_fails o
  then (Returned, fst (CloseFds (mkWorld s rx)), snd (CloseFds (mkWorld s rx)))
  else if uint32_t (Z.of_nat (length rx)) <? packet_full_len rx
  then (Returned, mkWorld (fst (AttachJdwpAgent o s)) rx,
        snd (AttachJdwpAgent o s))
  else if recv_fails o
  then (Returned, fst (CloseFds (mkWorld s rx)), snd (CloseFds (mkWorld s rx)))
  else
    let full_len := packet_full_len rx in
    let rest := skipn (Z.to_nat full_len) rx in
    if full_len - kPacketHeaderLen <? 4 * 2 then (Returned, mkWorld s rest, [])
    else if packet_ddm_len rx >? full_len - kPacketHeaderLen - 2 * 4
    then (Returned, mkWorld s rest, [])
    else
      let notified :=
        if notified_ddm_active_ s then [] else [DdmConnected] in
      let s' := set_notified_ddm_active true s in
      let called :=
        [DdmHandleChunk_call (ntohl (skipn 11 rx))
           (firstn (Z.to_nat (packet_ddm_len rx))
              (skipn 19 (firstn (Z.to_nat full_len) rx)))] in
      match DdmHandleChunk o with
      | None => (Returned, mkWorld s' rest, notified ++ called)
      | Some (reply_type, reply) =>
          (Returned, mkWorld s' rest,
           notified ++ called
           ++ SendDdmPacket (packet_id rx) kReply reply_type reply s')
      end.
Proof.
  intros Ha Hp Hpk Hlen.
  unfold HandleDataWithoutAgent. cbn [self adb_rx]. rewrite Ha, Hp, Hpk.
  cbn [negb]. change (Z.to_nat kPacketHeaderLen) with 11%nat.
  assert (Hl11 : length (firstn 11 rx) = 11%nat)
    by (rewrite length_firstn; lia).
  rewrite Hl11. change (Z.of_nat 11 <=? 0) with false.
  change (Z.of_nat 11 <? kPacketHeaderLen) with false. cbv iota.
  unfold kPacketSizeOff, kPacketIdOff, kPacketCommandSetOff,
    kPacketCommandOff.
  rewrite !ntohl_header, !nth_header by lia.
  change (nth 9 rx 0) with (packet_cmd_set rx).
  change (nth 10 rx 0) with (packet_cmd rx).
  change (ntohl (skipn 0 rx)) with (packet_full_len rx).
  change (ntohl (skipn 4 rx)) with (packet_id rx).
  destruct (negb (packet_cmd_set rx =? kDdmCommandSet)
            || negb (packet_cmd rx =? kDdmChunkCommand)
            || (packet_full_len rx <? kPacketHeaderLen)) eqn:Hunk.
  { reflexivity. }
  destruct (ioctl_fails o).
  { destruct (CloseFds (mkWorld s rx)); reflexivity. }
  destruct (uint32_t (Z.of_nat (length rx)) <? packet_full_len rx) eqn:Hav.
  { reflexivity. }
  destruct (recv_fails o).
  { destruct (CloseFds (mkWorld s rx)); reflexivity. }
  cbv zeta.
  destruct (packet_full_len rx - kPacketHeaderLen <? 4 * 2) eqn:Hsz.
  { reflexivity. }
  apply orb_false_iff in Hunk. destruct Hunk as [_ Hfl].
  apply Z.ltb_ge in Hfl, Hav, Hsz. unfold kPacketHeaderLen in *.
  assert (Hu : uint32_t (Z.of_nat (length rx)) <= Z.of_nat (length rx)).
  { unfold uint32_t. apply Z.mod_le; lia. }
  unfold ReadUint32AndAdvance.
  set (n := Z.to_nat (packet_full_len rx)) in *.
  assert (Hn : (19 <= n <= length rx)%nat) by (unfold n; lia).
  rewrite !skipn_skipn. cbn [Nat.add].
  rewrite !ntohl_skipn_firstn by lia.
  change (ntohl (skipn 15 rx)) with (packet_ddm_len rx).
  assert (Hrec : length (firstn n rx) = n) by (rewrite length_firstn; lia).
  rewrite Hrec, Nat.sub_diag. cbn [repeat]. rewrite app_nil_r.
  destruct (packet_ddm_len rx >? packet_full_len rx - 11 - 2 * 4) eqn:Hbad.
  { reflexivity. }
  unfold NotifyDdms.
  destruct (notified_ddm_active_ s) eqn:Hnot; cbn [negb].
  - replace (set_notified_ddm_active true s) with s
      by (destruct s; cbn in *; subst; reflexivity).
    destruct (DdmHandleChunk o) as [[reply_type reply]|]; reflexivity.
  - destruct (DdmHandleChunk o) as [[reply_type reply]|]; reflexivity.
Qed.

End PacketPhase.

(** ** The fields of a DDM command packet *)

Lemma ntohl_bytes (x : Z) (rest : list Z) :
  0 <= x < 2 ^ 32 ->
  ntohl (Z.land (Z.shiftr x 24) 255 :: Z.land (Z.shiftr x 16) 255
         :: Z.land (Z.shiftr x 8) 255 :: Z.land x 255 :: rest) = x.
Proof. intros Hx. exact (ntohl_htonl x rest Hx). Qed.

Lemma length_ddm_command (id flags type : Z) (data : list Z) :
  length (ddm_command id flags type data) = (19 + length data)%nat.
Proof. reflexivity. Qed.

Lemma ddm_command_fields (id flags type : Z) (data rest : list Z) :
  0 <= id < 2 ^ 32 -> 0 <= type < 2 ^ 32 ->
  Z.of_nat (length data) + 19 < 2 ^ 32 ->
  let rx := ddm_command id flags type data ++ rest in
  packet_full_len rx = 19 + Z.of_nat (length data)
  /\ packet_id rx = id
  /\ packet_cmd_set rx = kDdmCommandSet
  /\ packet_cmd rx = kDdmChunkCommand
  /\ ntohl (skipn 11 rx) = type
  /\ packet_ddm_len rx = Z.of_nat (length data)
  /\ skipn (19 + length data) rx = rest
  /\ firstn (length data) (skipn 19 (firstn (19 + length data) rx)) = data.
Proof.
  intros Hid Hty Hlen rx. subst rx.
  unfold packet_full_len, packet_id, packet_cmd_set, packet_cmd,
    packet_ddm_len, ddm_command, kPacketSizeOff, kPacketIdOff,
    kPacketCommandSetOff, kPacketCommandOff, kPacketHeaderLen.
  cbn [htonl app skipn nth firstn Nat.add].
  rewrite !ntohl_bytes by lia.
  repeat split; try reflexivity; try lia.
  - rewrite skipn_app, skipn_all, Nat.sub_diag. reflexivity.
  - rewrite firstn_app, firstn_all, Nat.sub_diag. cbn [firstn].
    rewrite app_nil_r. apply firstn_all.
Qed.

Lemma ddm_packet_header_fields `{ExternalDecls} (id type : Z) (data : list Z) :
  0 <= id < 2 ^ 32 -> 0 <= type < 2 ^ 32 ->
  Z.of_nat (length data) + 19 < 2 ^ 32 ->
  let pkt := ddm_packet_header id kReply type data in
  length pkt = 19%nat
  /\ packet_full_len pkt = 11 + 8 + Z.of_nat (length data)
  /\ packet_id pkt = id
  /\ nth 8 pkt 0 = DdmPacketType_uint8 kReply
  /\ ntohl (skipn 11 pkt) = type
  /\ packet_ddm_len pkt = Z.of_nat (length data)
  /\ skipn 19 (pkt ++ data) = data.
Proof.
  intros Hid Hty Hlen pkt. subst pkt.
  unfold packet_full_len, packet_id, packet_ddm_len, ddm_packet_header,
    kPacketSizeOff, kPacketIdOff, kDdmPacketHeaderSize, kJdwpHeaderLen.
  unfold htonl. cbn [app skipn nth firstn length].
  rewrite !ntohl_bytes by lia.
  repeat split; try reflexivity; lia.
Qed.

Lemma attaches_CloseFds (w : World) :
  attaches (snd (CloseFds w)) = 0%nat.
Proof.
  unfold CloseFds, NotifyDdms. destruct (negb _ && _); reflexivity.
Qed.

Section PacketPhaseProperties.
Context {decls : ExternalDecls}.

(** What [HandleDataWithoutAgent] does in packet phase when [recv] peeks at
    least one byte: it calls [AttachAgent] once, touching neither the stream
    nor the socket, when the header is short or not one it handles or the
    packet is not all there; otherwise it does not call it. *)
Lemma escalation_cases (o : Oracle) (s : AdbConnectionState) (rx : list Z) :
  IsJdwpAllowed o = true -> performed_handshake_ s = true ->
  peek_fails o = false -> ioctl_fails o = false ->
  (1 <= length rx)%nat ->
  let r := HandleDataWithoutAgent o (mkWorld s rx) in
  if (length rx <? 11)%nat
     || negb (packet_cmd_set rx =? kDdmCommandSet)
     || negb (packet_cmd rx =? kDdmChunkCommand)
     || (packet_full_len rx <? kPacketHeaderLen)
     || (uint32_t (Z.of_nat (length rx)) <? packet_full_len rx)
  then r = (Returned, mkWorld (fst (AttachJdwpAgent o s)) rx,
            [AttachAgent_call (notified_ddm_active_ s)])
  else attaches (snd r) = 0%nat.
Proof.
  intros Ha Hp Hpk Hio Hlen r. subst r.
  destruct (Nat.ltb_spec (length rx) 11) as [Hshort|Hfull]; cbn [orb].
  - unfold HandleDataWithoutAgent. cbn [self adb_rx]. rewrite Ha, Hp, Hpk.
    cbn [negb]. change (Z.to_nat kPacketHeaderLen) with 11%nat.
    rewrite firstn_all2 by lia. unfold kPacketHeaderLen.
    rewrite (proj2 (Z.leb_gt _ _)) by lia.
    rewrite (proj2 (Z.ltb_lt _ _)) by lia. reflexivity.
  - rewrite HandleDataWithoutAgent_header by assumption.
    destruct (negb (packet_cmd_set rx =? kDdmCommandSet)
              || negb (packet_cmd rx =? kDdmChunkCommand)
              || (packet_full_len rx <? kPacketHeaderLen)); cbn [orb].
    { reflexivity. }
    rewrite Hio.
    destruct (uint32_t (Z.of_nat (length rx)) <? packet_full_len rx).
    { reflexivity. }
    destruct (recv_fails o); cbn [snd]; [apply attaches_CloseFds|].
    cbv zeta. unfold SendDdmPacket.
    break_conds; reflexivity.
Qed.

(** C5 (as the code has it): in packet phase, when neither the peek nor
    [ioctl] fails: if [recv] peeks no byte at all (end of stream),
    [HandleDataWithoutAgent] closes the connection and does not call
    [AttachAgent]; if it peeks at least one byte, it calls [AttachAgent]
    exactly when fewer than 11 bytes could be peeked, or the command set is
    not 199, or the command is not 1, or the declared length is below 11, or
    fewer bytes are readable than the packet declares, and when it does, it
    does nothing else: the stream and the socket are as before. *)
Theorem C5_escalation (o : Oracle) (w : World) :
  IsJdwpAllowed o = true -> performed_handshake_ (self w) = true ->
  peek_fails o = false -> ioctl_fails o = false ->
  let rx := adb_rx w in
  let r := HandleDataWithoutAgent o w in
  (rx = [] ->
   r = (Returned, fst (CloseFds w), snd (CloseFds w))
   /\ attaches (snd r) = 0%nat
   /\ adb_connection_socket_ (self (snd (fst r))) = -1)
  /\ ((1 <= length rx)%nat ->
      (attaches (snd r) = 1%nat <->
       (length rx < 11)%nat
       \/ packet_cmd_set rx <> kDdmCommandSet
       \/ packet_cmd rx <> kDdmChunkCommand
       \/ packet_full_len rx < kPacketHeaderLen
       \/ uint32_t (Z.of_nat (length rx)) < packet_full_len rx)
      /\ (attaches (snd r) = 1%nat ->
          r = (Returned, mkWorld (fst (AttachJdwpAgent o (self w))) rx,
               [AttachAgent_call (notified_ddm_active_ (self w))])
          /\ adb_rx (snd (fst r)) = rx
          /\ adb_connection_socket_ (self (snd (fst r))) =
             adb_connection_socket_ (self w))
      /\ (attaches (snd r) = 0%nat \/ attaches (snd r) = 1%nat)).
Proof.
  intros Ha Hp Hpk Hio rx r. destruct w as [s rx0].
  cbn [self adb_rx] in *. subst rx. split.
  { intros ->. subst r. unfold HandleDataWithoutAgent. cbn [self adb_rx].
    rewrite Ha, Hp, Hpk. cbn [negb].
    change (Z.to_nat kPacketHeaderLen) with 11%nat. cbn [firstn length].
    change (Z.of_nat 0 <=? 0) with true. cbv iota.
    pose proof (attaches_CloseFds (mkWorld s [])) as Hatt.
    pose proof (CloseFds_closes (mkWorld s [])) as [Hsock _].
    destruct (CloseFds (mkWorld s [])) as [w' t]. cbn [fst snd] in *.
    repeat split; assumption. }
  intros Hlen.
  pose proof (escalation_cases o s rx0 Ha Hp Hpk Hio Hlen) as Hc.
  cbv zeta in Hc. fold r in Hc.
  destruct ((length rx0 <? 11)%nat
            || negb (packet_cmd_set rx0 =? kDdmCommandSet)
            || negb (packet_cmd rx0 =? kDdmChunkCommand)
            || (packet_full_len rx0 <? kPacketHeaderLen)
            || (uint32_t (Z.of_nat (length rx0)) <? packet_full_len rx0))
    eqn:He.
  - assert (Hone : attaches (snd r) = 1%nat) by (rewrite Hc; reflexivity).
    split; [|split].
    + split; [intros _|intros _; exact Hone].
      repeat (apply orb_true_iff in He; destruct He as [He|He]).
      * left. apply Nat.ltb_lt. exact He.
      * right; left. apply negb_true_iff, Z.eqb_neq in He. exact He.
      * right; right; left. apply negb_true_iff, Z.eqb_neq in He. exact He.
      * right; right; right; left. apply Z.ltb_lt. exact He.
      * right; right; right; right. apply Z.ltb_lt. exact He.
    + intros _. rewrite Hc. cbn [fst snd self adb_rx]. split; [reflexivity|].
      split; [reflexivity|].
      unfold AttachJdwpAgent. cbn [fst].
      destruct (AttachAgent_ok o); reflexivity.
    + right. exact Hone.
  - repeat (apply orb_false_iff in He; destruct He as [He ?]).
    split; [|split].
    + split; [intros Hatt; rewrite Hc in Hatt; discriminate Hatt|].
      intros [Hs|[Hs|[Hs|[Hs|Hs]]]]; exfalso.
      * apply Nat.ltb_ge in He. lia.
      * match goal with
        | H : negb (packet_cmd_set _ =? _) = false |- _ =>
            apply negb_false_iff, Z.eqb_eq in H; exact (Hs H)
        end.
      * match goal with
        | H : negb (packet_cmd _ =? _) = false |- _ =>
            apply negb_false_iff, Z.eqb_eq in H; exact (Hs H)
        end.
      * match goal with
        | H : (packet_full_len _ <? kPacketHeaderLen) = false |- _ =>
            apply Z.ltb_ge in H; lia
        end.
      * match goal with
        | H : (uint32_t _ <? _) = false |- _ => apply Z.ltb_ge in H; lia
        end.
    + intros Hatt. rewrite Hc in Hatt. discriminate Hatt.
    + left. exact Hc.
Qed.

(** C6: in packet phase, for a DDM command packet that is all readable (and
    with the system calls succeeding), when fewer than 8 bytes follow the
    11-byte header or the chunk declares more bytes than follow its 8-byte
    header, [HandleDataWithoutAgent] consumes the whole packet and does
    nothing else: no reply, no call of the DDM handler, no notification, no
    close; the state is unchanged. *)
Theorem C6_malformed_chunk_dropped (o : Oracle) (w : World) :
  IsJdwpAllowed o = true -> performed_handshake_ (self w) = true ->
  peek_fails o = false -> ioctl_fails o = false -> recv_fails o = false ->
  packet_cmd_set (adb_rx w) = kDdmCommandSet ->
  packet_cmd (adb_rx w) = kDdmChunkCommand ->
  kPacketHeaderLen <= packet_full_len (adb_rx w) ->
  packet_full_len (adb_rx w) <= Z.of_nat (length (adb_rx w)) < 2 ^ 32 ->
  (packet_full_len (adb_rx w) - kPacketHeaderLen < 8
   \/ packet_ddm_len (adb_rx w) > packet_full_len (adb_rx w) - kPacketHeaderLen - 8) ->
  HandleDataWithoutAgent o w =
  (Returned,
   mkWorld (self w) (skipn (Z.to_nat (packet_full_len (adb_rx w))) (adb_rx w)),
   []).
Proof.
  intros Ha Hp Hpk Hio Hrecv Hset Hcmd Hmin Hmax Hbad.
  destruct w as [s rx]. cbn [self adb_rx] in *.
  unfold kPacketHeaderLen in *.
  rewrite HandleDataWithoutAgent_header by (try assumption; lia).
  rewrite Hset, Hcmd, Hio, Hrecv, !Z.eqb_refl. cbn [negb orb].
  unfold kPacketHeaderLen.
  rewrite (proj2 (Z.ltb_ge _ _)) by lia.
  rewrite uint32_t_small by lia.
  rewrite (proj2 (Z.ltb_ge _ _)) by lia.
  cbv zeta.
  destruct (packet_full_len rx - 11 <? 4 * 2) eqn:Hsz; [reflexivity|].
  apply Z.ltb_ge in Hsz.
  destruct Hbad as [Hbad|Hbad]; [lia|].
  rewrite (proj2 (Z.gtb_gt _ _)) by lia. reflexivity.
Qed.

(** C4: in packet phase (and with the system calls succeeding), for a DDM
    command packet with id [id], chunk type [type] and chunk [data] to which
    the DDM handler answers [(reply_type, reply)], [HandleDataWithoutAgent]
    consumes the packet, hands [type] and [data] to the handler and writes
    exactly one packet to the debug socket: length field 11 + 8 + the length
    of [reply], id [id], the flags byte of a reply, then [reply_type], the
    length of [reply] and [reply], all fields big-endian. *)
Theorem C4_local_reply (o : Oracle) (s : AdbConnectionState)
    (id flags type : Z) (data rest : list Z)
    (reply_type : Z) (reply : list Z) :
  IsJdwpAllowed o = true -> performed_handshake_ s = true ->
  (adb_connection_socket_ s =? -1) = false ->
  peek_fails o = false -> ioctl_fails o = false -> recv_fails o = false ->
  DdmHandleChunk o = Some (reply_type, reply) ->
  0 <= id < 2 ^ 32 -> 0 <= type < 2 ^ 32 -> 0 <= reply_type < 2 ^ 32 ->
  Z.of_nat (length data) + Z.of_nat (length rest) + 19 < 2 ^ 32 ->
  Z.of_nat (length reply) + 19 < 2 ^ 32 ->
  let r :=
    HandleDataWithoutAgent o
      (mkWorld s (ddm_command id flags type data ++ rest)) in
  let pkt := ddm_packet_header id kReply reply_type reply in
  r = (Returned, mkWorld (set_notified_ddm_active true s) rest,
       (if notified_ddm_active_ s then [] else [DdmConnected])
       ++ [DdmHandleChunk_call type data;
           ScopedEventFdLock_acquire;
           writev_call (adb_connection_socket_ s) pkt reply;
           ScopedEventFdLock_release])
  /\ written (snd r) = [(adb_connection_socket_ s, pkt ++ reply)]
  /\ chunk_calls (snd r) = 1%nat
  /\ length pkt = 19%nat
  /\ packet_full_len pkt = 11 + 8 + Z.of_nat (length reply)
  /\ packet_id pkt = id
  /\ nth 8 pkt 0 = DdmPacketType_uint8 kReply
  /\ ntohl (skipn 11 pkt) = reply_type
  /\ packet_ddm_len pkt = Z.of_nat (length reply)
  /\ skipn 19 (pkt ++ reply) = reply.
Proof.
  intros Ha Hp Hsock Hpk Hio Hrecv Hreply Hid Hty Hrty Hlen Hrlen r pkt.
  assert (Hlen' : Z.of_nat (length data) + 19 < 2 ^ 32) by lia.
  destruct (ddm_command_fields id flags type data rest Hid Hty Hlen')
    as (Hfl & Hpid & Hset & Hcmd & Htype & Hdl & Hskip & Hfirst).
  set (rx := ddm_command id flags type data ++ rest) in *.
  assert (Hrx : length rx = (19 + length data + length rest)%nat).
  { unfold rx. rewrite length_app, length_ddm_command. reflexivity. }
  assert (Hr : r = (Returned, mkWorld (set_notified_ddm_active true s) rest,
       (if notified_ddm_active_ s then [] else [DdmConnected])
       ++ [DdmHandleChunk_call type data;
           ScopedEventFdLock_acquire;
           writev_call (adb_connection_socket_ s) pkt reply;
           ScopedEventFdLock_release])).
  { unfold r. rewrite HandleDataWithoutAgent_header by (try assumption; lia).
    rewrite Hset, Hcmd, Hio, Hrecv, Hreply, !Z.eqb_refl. cbn [negb orb].
    rewrite Hfl, Hdl, Htype, Hpid. unfold kPacketHeaderLen.
    rewrite (proj2 (Z.ltb_ge _ _)) by lia.
    rewrite uint32_t_small by lia.
    rewrite (proj2 (Z.ltb_ge _ _)) by lia.
    cbv zeta.
    rewrite (proj2 (Z.ltb_ge _ _)) by lia.
    replace (19 + Z.of_nat (length data) - 11 - 2 * 4)
      with (Z.of_nat (length data)) by lia.
    rewrite Z.gtb_ltb, Z.ltb_irrefl.
    replace (Z.to_nat (19 + Z.of_nat (length data)))
      with (19 + length data)%nat by lia.
    rewrite Nat2Z.id, Hskip, Hfirst.
    unfold SendDdmPacket. cbn [adb_connection_socket_ performed_handshake_].
    replace (adb_connection_socket_ (set_notified_ddm_active true s))
      with (adb_connection_socket_ s) by (destruct s; reflexivity).
    replace (performed_handshake_ (set_notified_ddm_active true s))
      with (performed_handshake_ s) by (destruct s; reflexivity).
    rewrite Hsock, Hp. cbn [negb orb]. reflexivity. }
  split; [exact Hr|].
  split; [rewrite Hr; cbn [snd]; destruct (notified_ddm_active_ s); reflexivity|].
  split; [rewrite Hr; cbn [snd]; destruct (notified_ddm_active_ s); reflexivity|].
  exact (ddm_packet_header_fields id reply_type reply Hid Hrty Hrlen).
Qed.

End PacketPhaseProperties.

(** ** The token that accompanies the descriptors *)

Section Tokens.
Context {decls : ExternalDecls}.

(** Whatever happens, at most one transfer is attempted, and the token is
    the skip-handshake one only when [performed_handshake_] was set. *)
Lemma step_handoff_token (i : Input) (m : Machine) :
  handoffs (snd (step i m)) = []
  \/ handoffs (snd (step i m)) = [c_str kPerformHandshakeMessage]
  \/ (handoffs (snd (step i m)) = [c_str kSkipHandshakeMessage]
      /\ performed_handshake_ (self (world m)) = true).
Proof.
  destruct m as [p [s rx]]. destruct s.
  unfold_worker. destruct i; break_conds.
  all: cbn.
  all: try (left; reflexivity).
  all: bool_hyps; subst.
  all: try (right; left; reflexivity).
  all: right; right; split; reflexivity.
Qed.

(** A new connection is handed over with the perform-handshake token. *)
Lemma control_sock_handoff_token (o : Oracle) (w : World) :
  handoffs (snd (RunPollLoop_control_sock o w)) = []
  \/ handoffs (snd (RunPollLoop_control_sock o w))
     = [c_str kPerformHandshakeMessage].
Proof.
  destruct w as [s rx]. destruct s.
  unfold RunPollLoop_control_sock, SendAgentFds, ctl_of. break_conds.
  all: cbn.
  all: try (left; reflexivity).
  all: right; reflexivity.
Qed.

(** So is a transfer that is retried when data arrives, whether or not the
    coordinator has already completed the handshake on this connection. *)
Lemma adb_socket_handoff_token (o : Oracle) (w : World) :
  agent_loaded_ (self w) = true ->
  handoffs (snd (RunPollLoop_adb_socket o w)) = []
  \/ handoffs (snd (RunPollLoop_adb_socket o w))
     = [c_str kPerformHandshakeMessage].
Proof.
  destruct w as [s rx]. destruct s. cbn [self agent_loaded_]. intros ->.
  unfold RunPollLoop_adb_socket, SendAgentFds, ctl_of. break_conds.
  all: try discriminate.
  all: cbn.
  all: try (left; reflexivity).
  all: right; reflexivity.
Qed.

End Tokens.

(** * The model on concrete runs *)

(** C2 (the claim as stated fails): after two failed connections the worker
    has slept 500 ms and then 750 ms, where a delay that doubles would be
    1000 ms. *)
Lemma C2_second_delay_is_750 :
  snd (run (decls := spec_decls) (map worker [connect_fails; connect_fails])
         (mkMachine (PcSetup 500) (handshake_phase [])))
  = [adbconnection_client_new_call; usleep_call 500000;
     adbconnection_client_new_call; usleep_call 750000]
  /\ doubling_schedule 1 = 1000
  /\ backoff_schedule 1 = 750.
Proof. repeat split; reflexivity. Qed.

(** Three failed connections, and a worker that finds the flag set. *)
Lemma C2_backoff_schedule_witness :
  run (decls := spec_decls)
    (map worker [connect_fails; connect_fails; connect_fails])
    (mkMachine (PcSetup 500) (handshake_phase []))
  = (mkMachine (PcSetup 1687) (handshake_phase []),
     [adbconnection_client_new_call; usleep_call 500000;
      adbconnection_client_new_call; usleep_call 750000;
      adbconnection_client_new_call; usleep_call 1125000])
  /\ RunPollLoop_step (decls := spec_decls) calm
       (mkMachine (PcSetup 750)
          (mkWorld (set_shutting_down true (self (handshake_phase []))) []))
     = (mkMachine PcReturned
          (mkWorld (set_shutting_down true (self (handshake_phase []))) []),
        []).
Proof.
  split.
  - apply (proj1 (C2_backoff_schedule (decls := spec_decls)
                    [connect_fails; connect_fails; connect_fails]
                    (handshake_phase []) 500 calm)).
    + reflexivity.
    + repeat constructor.
  - apply (proj2 (C2_backoff_schedule (decls := spec_decls) []
                    (mkWorld (set_shutting_down true
                                (self (handshake_phase []))) [])
                    750 calm)).
    reflexivity.
Defined.



(** C7 (the code at the failing input): the coordinator completes the
    handshake with the debugger itself, loads the agent, and the transfer on
    listen-start fails in [sendmsg]; the transfer retried when the debug
    socket is readable again, on the same connection, carries the
    perform-handshake token although [performed_handshake_] is set. *)
Theorem C7_retried_handoff_asks_for_handshake :
  let before := run (decls := spec_decls) failed_handoff (boot 3 4) in
  let retry := step (decls := spec_decls) (worker (adb_readable_sendmsg 0))
                 (fst before) in
  written (snd before) = [(7, kJdwpHandshake)]
  /\ socket_resets (snd before) = 0%nat
  /\ handoffs (snd before)
     = [c_str (kSkipHandshakeMessage (ExternalDecls := spec_decls))]
  /\ sent_agent_fds_ (self (world (fst before))) = false
  /\ performed_handshake_ (self (world (fst before))) = true
  /\ handoffs (snd retry)
     = [c_str (kPerformHandshakeMessage (ExternalDecls := spec_decls))]
  /\ socket_resets (snd retry) = 0%nat
  /\ sent_agent_fds_ (self (world (fst retry))) = true
  /\ performed_handshake_ (self (world (fst retry))) = true.
Proof. cbv zeta. repeat split; reflexivity. Qed.


(** A corrupted handshake (last byte wrong): the socket is closed and nothing
    is written. *)
Example corrupted_handshake_closes :
  PerformHandshake (adb_readable None)
    (handshake_phase
       [74; 68; 87; 80; 45; 72; 97; 110; 100; 115; 104; 97; 107; 102])
  = (Returned,
     mkWorld (mkState true 3 (-1) 4 false false false false false false false 1)
       [],
     [ScopedEventFdLock_acquire; adb_connection_socket_reset 7;
      ScopedEventFdLock_release]).
Proof. reflexivity. Qed.

(** A JDWP command of another command set: the agent is loaded and the
    command stays in the stream. *)
Lemma C5_escalation_witness :
  let w := packet_phase version_command in
  let r := HandleDataWithoutAgent (decls := spec_decls) (adb_readable None) w in
  r = (Returned,
       mkWorld (fst (AttachJdwpAgent (adb_readable None) (self w)))
         version_command,
       [AttachAgent_call false])
  /\ adb_rx (snd (fst r)) = version_command
  /\ adb_connection_socket_ (self (snd (fst r))) = 7.
Proof.
  cbv zeta.
  assert (Hlen : (1 <= length (adb_rx (packet_phase version_command)))%nat)
    by (cbn; lia).
  destruct (C5_escalation (decls := spec_decls) (adb_readable None)
              (packet_phase version_command)
              eq_refl eq_refl eq_refl eq_refl) as [_ Hsome].
  destruct (Hsome Hlen) as (Hiff & Hatt & _).
  apply Hatt. apply Hiff. right; left. cbn. discriminate.
Defined.

(** C5 (the claim as stated fails): when the debugger has closed the
    connection, the peek returns no byte, which is fewer than 11; the agent
    is not attached and the connection does not stay open: the socket is
    reset. *)
Lemma C5_empty_peek_closes :
  let w := packet_phase [] in
  let r := HandleDataWithoutAgent (decls := spec_decls) (adb_readable None) w in
  (length (adb_rx w) <? 11)%nat = true
  /\ attaches (snd r) = 0%nat
  /\ snd r = [ScopedEventFdLock_acquire; adb_connection_socket_reset 7;
              ScopedEventFdLock_release]
  /\ adb_connection_socket_ (self w) = 7
  /\ adb_connection_socket_ (self (snd (fst r))) = -1.
Proof. cbv zeta. repeat split; reflexivity. Qed.

(** A DDM command whose payload is only four bytes long, followed by one
    byte of the next packet. *)
Lemma C6_malformed_chunk_dropped_witness :
  HandleDataWithoutAgent (decls := spec_decls) (adb_readable None)
    (packet_phase [0; 0; 0; 15; 0; 0; 0; 2; 0; 199; 1; 1; 2; 3; 4; 9])
  = (Returned, packet_phase [9], []).
Proof.
  apply (C6_malformed_chunk_dropped (decls := spec_decls) (adb_readable None)
           (packet_phase [0; 0; 0; 15; 0; 0; 0; 2; 0; 199; 1; 1; 2; 3; 4; 9]));
    try reflexivity.
  - cbn. discriminate.
  - cbn. split; [discriminate|reflexivity].
  - left. cbn. reflexivity.
Defined.

(** The chunk HELO (type 1212501071) with id 2 and a four-byte payload,
    answered by a three-byte chunk of the same type. *)
Lemma C4_local_reply_witness :
  written
    (snd (HandleDataWithoutAgent (decls := spec_decls)
            (adb_readable (Some (1212501071, [1; 2; 3])))
            (packet_phase (ddm_command 2 0 1212501071 [0; 0; 0; 1] ++ []))))
  = [(7, [0; 0; 0; 22; 0; 0; 0; 2; 128; 0; 0; 72; 69; 76; 79; 0; 0; 0; 3;
          1; 2; 3])].
Proof.
  apply (proj1 (proj2 (C4_local_reply (decls := spec_decls)
                         (adb_readable (Some (1212501071, [1; 2; 3])))
                         (self (packet_phase []))
                         2 0 1212501071 [0; 0; 0; 1] [] 1212501071 [1; 2; 3]
                         eq_refl eq_refl eq_refl eq_refl eq_refl eq_refl
                         eq_refl
                         ltac:(cbn; lia) ltac:(cbn; lia) ltac:(cbn; lia)
                         ltac:(cbn; lia) ltac:(cbn; lia)))).
Defined.

(** The scenario of the specification: the handshake is echoed and
    [performed_handshake_] set, and the monitor is not reported active before
    the first chunk is handled. *)
Example handshake_scenario :
  let r := run (decls := spec_decls) (firstn 5 monitor_sessions) (boot 3 4) in
  written (snd r) = [(7, kJdwpHandshake)]
  /\ performed_handshake_ (self (world (fst r))) = true
  /\ notified_ddm_active_ (self (world (fst r))) = false
  /\ notifications (snd r) = [].
Proof. cbv zeta. repeat split; reflexivity. Qed.

(** Two monitor sessions: active, inactive, active; the second chunk of the
    first session and the handshakes send no notification. *)
Example monitor_sessions_notifications :
  let r := run (decls := spec_decls) monitor_sessions (boot 3 4) in
  notifications (snd r) = [true; false; true]
  /\ chunk_calls (snd r) = 3%nat
  /\ socket_resets (snd r) = 1%nat
  /\ notified_ddm_active_ (self (world (fst r))) = true.
Proof. cbv zeta. repeat split; reflexivity. Qed.

(** * More of the coordinator *)

(** ** The framing codec *)

Lemma testbit_mod_2_32 (x n : Z) :
  0 <= n < 32 -> Z.testbit (x mod 2 ^ 32) n = Z.testbit x n.
Proof. intros Hn. apply Z.mod_pow2_bits_low. lia. Qed.

Lemma byte_of_mod (x k : Z) :
  0 <= k -> k + 8 <= 32 ->
  Z.land (Z.shiftr (x mod 2 ^ 32) k) 255 = Z.land (Z.shiftr x k) 255.
Proof.
  intros Hk Hk8. change 255 with (Z.ones 8).
  apply Z.bits_inj'. intros n Hn.
  rewrite !Z.land_spec, !Z.shiftr_spec by lia.
  destruct (Z_lt_dec n 8).
  - rewrite testbit_mod_2_32 by lia. reflexivity.
  - rewrite Z.ones_spec_high by lia. rewrite !andb_false_r. reflexivity.
Qed.

Lemma htonl_mod (x : Z) : htonl (x mod 2 ^ 32) = htonl x.
Proof.
  unfold htonl.
  rewrite (byte_of_mod x 24), (byte_of_mod x 16), (byte_of_mod x 8) by lia.
  pose proof (byte_of_mod x 0) as H0. rewrite !Z.shiftr_0_r in H0.
  rewrite H0 by lia. reflexivity.
Qed.

(** X1: [ReadUint32AndAdvance] undoes [htonl]: on the four bytes that
    [SendDdmPacket] stores for a value it returns that value, reduced to 32
    bits, and advances past exactly those four bytes. *)
Theorem ReadUint32AndAdvance_htonl (x : Z) (rest : list Z) :
  ReadUint32AndAdvance (htonl x ++ rest) = (uint32_t x, rest).
Proof.
  unfold ReadUint32AndAdvance. f_equal.
  rewrite <- (htonl_mod x). apply ntohl_htonl.
  apply Z.mod_pos_bound. lia.
Qed.

Lemma lor_sign_low (c : Z) :
  0 <= c < 2 ^ 31 -> Z.lor c 2147483648 = c + 2147483648.
Proof.
  intros Hc. change 2147483648 with (2 ^ 31).
  assert (Hl : Z.land c (2 ^ 31) = 0).
  { apply Z.bits_inj'. intros n Hn. rewrite Z.land_spec, Z.bits_0.
    rewrite Z.pow2_bits_eqb by lia.
    destruct (Z.eqb_spec 31 n) as [<-|Hne]; [|apply andb_false_r].
    rewrite andb_true_r.
    destruct (Z.eq_dec c 0) as [->|Hnz]; [apply Z.bits_0|].
    apply Z.bits_above_log2; [lia|].
    apply Z.log2_lt_pow2; lia. }
  rewrite <- Z.lxor_lor by exact Hl.
  symmetry. apply Z.add_nocarry_lxor. exact Hl.
Qed.

Lemma lor_sign (c : Z) :
  0 <= c < 2 ^ 32 -> Z.lor c 2147483648 = 2147483648 + c mod 2147483648.
Proof.
  intros Hc. destruct (Z_lt_dec c (2 ^ 31)) as [Hlo|Hhi].
  - rewrite lor_sign_low by lia. rewrite Z.mod_small by lia. lia.
  - assert (Hc' : 0 <= c - 2147483648 < 2 ^ 31) by lia.
    replace c with ((c - 2147483648) + 2147483648) at 1 by lia.
    rewrite <- (lor_sign_low (c - 2147483648)) by exact Hc'.
    rewrite <- Z.lor_assoc, Z.lor_diag, lor_sign_low by exact Hc'.
    replace (c mod 2147483648) with (c - 2147483648); [lia|].
    apply Z.mod_unique with (q := 1); lia.
Qed.

(** X4: with the counter in the range of a [uint32_t], [NextDdmId] returns
    an id with bit 31 set whose low 31 bits are those of the counter, so an
    id in [2^31, 2^32), and advances the counter by one modulo 2^32. *)
Theorem NextDdmId_sign_bit (s : AdbConnectionState) :
  0 <= next_ddm_id_ s < 2 ^ 32 ->
  let id := fst (NextDdmId s) in
  let s' := snd (NextDdmId s) in
  2 ^ 31 <= id < 2 ^ 32
  /\ id = 2 ^ 31 + next_ddm_id_ s mod 2 ^ 31
  /\ 0 <= next_ddm_id_ s' < 2 ^ 32
  /\ next_ddm_id_ s' = (next_ddm_id_ s + 1) mod 2 ^ 32.
Proof.
  intros Hc id s'. subst id s'. unfold NextDdmId. cbn [fst snd].
  rewrite lor_sign by exact Hc.
  change (2 ^ 31) with 2147483648. change (2 ^ 32) with 4294967296 in *.
  pose proof (Z.mod_pos_bound (next_ddm_id_ s) 2147483648 ltac:(lia)).
  destruct s as [? ? ? ? ? ? ? ? ? ? ? c]. cbn [next_ddm_id_ set_next_ddm_id] in *.
  unfold uint32_t. change (2 ^ 32) with 4294967296.
  pose proof (Z.mod_pos_bound (c + 1) 4294967296 ltac:(lia)).
  repeat split; lia.
Qed.
(** ** [ValidateJdwpOptions] *)

Lemma starts_with_app (s arg : list Z) :
  starts_with s arg = true <-> exists post, s = arg ++ post.
Proof.
  revert s. induction arg as [|a arg IH]; intros s; cbn [starts_with].
  - split; [intros _; exists s; reflexivity|reflexivity].
  - destruct s as [|c s].
    + split; [discriminate|intros [post H]; discriminate H].
    + rewrite andb_true_iff, IH, Z.eqb_eq. split.
      * intros [-> [post ->]]. exists post. reflexivity.
      * intros [post H]. cbn in H. injection H as -> ->.
        split; [reflexivity|exists post; reflexivity].
Qed.

Lemma string_find_occurs (s arg : list Z) :
  (exists n, string_find s arg = Some n) <->
  exists pre post, s = pre ++ arg ++ post.
Proof.
  induction s as [|c s IH]; cbn [string_find].
  - destruct (starts_with [] arg) eqn:Hs.
    + apply starts_with_app in Hs. destruct Hs as [post Hs].
      split; [intros _; exists [], post; exact Hs|intros _; exists O; reflexivity].
    + split; [intros [n H]; discriminate H|].
      intros (pre & post & H). exfalso.
      destruct pre; [|discriminate H]. cbn in H.
      assert (starts_with [] arg = true)
        by (apply starts_with_app; exists post; exact H).
      congruence.
  - destruct (starts_with (c :: s) arg) eqn:Hs.
    + apply starts_with_app in Hs. destruct Hs as [post Hs].
      split; [intros _; exists [], post; exact Hs|intros _; exists O; reflexivity].
    + split.
      * intros [n H]. destruct (string_find s arg) as [k|] eqn:Hf; [|discriminate H].
        destruct (proj1 IH (ex_intro _ k eq_refl)) as (pre & post & ->).
        exists (c :: pre), post. reflexivity.
      * intros (pre & post & H). destruct pre as [|p pre].
        { exfalso. cbn in H.
          assert (starts_with (c :: s) arg = true)
            by (apply starts_with_app; exists post; exact H).
          congruence. }
        cbn in H. injection H as -> ->.
        destruct (proj2 IH (ex_intro _ pre (ex_intro _ post eq_refl)))
          as [k ->].
        exists (S k). reflexivity.
Qed.

Lemma ContainsArgument_occurs (opts arg : list Z) :
  ContainsArgument opts arg = true <->
  exists pre post, opts = pre ++ arg ++ post.
Proof.
  rewrite <- string_find_occurs. unfold ContainsArgument.
  destruct (string_find opts arg) as [n|].
  - split; [intros _; exists n; reflexivity|reflexivity].
  - split; [discriminate|intros [n H]; discriminate H].
Qed.

(** X16: [ValidateJdwpOptions] rejects an option string exactly when
    [server=n] or [suspend=y] occurs somewhere in it. *)
Theorem ValidateJdwpOptions_rejects (opts : list Z) :
  ValidateJdwpOptions opts = false <->
  (exists pre post,
     opts = pre ++ bytes_of_string OptionLiterals.server_n ++ post)
  \/ (exists pre post,
        opts = pre ++ bytes_of_string OptionLiterals.suspend_y ++ post).
Proof.
  rewrite <- !ContainsArgument_occurs. unfold ValidateJdwpOptions.
  destruct (ContainsArgument opts (bytes_of_string OptionLiterals.server_n));
    destruct (ContainsArgument opts (bytes_of_string OptionLiterals.suspend_y));
    intuition congruence.
Qed.

(** ** The delays of [SetupAdbConnection], and shutdown *)

Lemma next_sleep_ms_bounds (sleep_ms : Z) :
  500 <= sleep_ms <= sleep_max_ms ->
  500 <= next_sleep_ms sleep_ms <= sleep_max_ms.
Proof.
  unfold next_sleep_ms, sleep_max_ms, int32_t. intros H.
  rewrite Z.shiftr_div_pow2 by lia.
  change (2 ^ 1) with 2. change (2 ^ 31) with 2147483648.
  change (2 ^ 32) with 4294967296. change (2 * 1000) with 2000 in *.
  assert (Hq : 0 <= sleep_ms / 2 <= 1000)
    by (split; [apply Z.div_pos; lia|apply Z.div_le_upper_bound; lia]).
  rewrite Z.mod_small by lia.
  destruct (Z.gtb_spec (sleep_ms + sleep_ms / 2 + 2147483648 - 2147483648) 2000);
    lia.
Qed.

Lemma sleeps_app (t1 t2 : list Event) :
  sleeps (t1 ++ t2) = sleeps t1 ++ sleeps t2.
Proof.
  induction t1 as [|e t1 IH]; [reflexivity|].
  destruct e; cbn [app sleeps]; rewrite IH; reflexivity.
Qed.

Section Lifecycle.
Context {decls : ExternalDecls}.

Lemma step_sleep_bounds (i : Input) (m : Machine) :
  sleep_ms_in_bounds (pc m) ->
  sleep_ms_in_bounds (pc (fst (step i m)))
  /\ Forall (fun usec => 500000 <= usec <= 2000000) (sleeps (snd (step i m))).
Proof.
  destruct m as [p [s rx]]. cbn [pc].
  destruct i as [o| |type data|bytes].
  - destruct p as [|sleep_ms| | | |]; cbn [step RunPollLoop_step pc world self].
    + intros _. break_conds; cbn; split; try constructor;
        unfold sleep_max_ms; lia.
    + intros Hb. cbn [sleep_ms_in_bounds] in Hb.
      pose proof (next_sleep_ms_bounds sleep_ms Hb) as Hn.
      unfold sleep_max_ms in *.
      assert (Hu : int32_t (sleep_ms * 1000) = sleep_ms * 1000).
      { unfold int32_t. change (2 ^ 31) with 2147483648.
        change (2 ^ 32) with 4294967296. rewrite Z.mod_small by lia. lia. }
      break_conds; cbn [fst snd pc sleeps sleep_ms_in_bounds];
        (split; [first [exact I|exact Hn]|]);
        repeat constructor; rewrite ?Hu; lia.
    + intros _. unfold_worker.
      destruct s as [ctx lsock sock wfd sd loaded listening has sent perf
                       notified nid].
      break_conds.
      all: cbn; split; [exact I|constructor].
    + intros _. cbn. split; [exact I|constructor].
    + intros _. cbn. split; [exact I|constructor].
    + intros _. cbn. split; [exact I|constructor].
  - intros Hb. cbn. split; [exact Hb|constructor].
  - intros Hb. unfold step, PublishDdmData, NextDdmId, SendDdmPacket.
    cbn [pc world self fst snd]. break_conds; cbn; split; try exact Hb; constructor.
  - intros Hb. unfold step. break_conds; cbn; split; try exact Hb; constructor.
Qed.

Lemma run_sleep_bounds (inputs : list Input) (m : Machine) :
  sleep_ms_in_bounds (pc m) ->
  sleep_ms_in_bounds (pc (fst (run inputs m)))
  /\ Forall (fun usec => 500000 <= usec <= 2000000) (sleeps (snd (run inputs m))).
Proof.
  revert m. induction inputs as [|i inputs IH]; intros m Hm.
  - cbn. split; [exact Hm|constructor].
  - cbn [run]. destruct (step_sleep_bounds i m Hm) as [Hp Hs].
    destruct (step i m) as [m' t]. cbn [fst snd] in *.
    destruct (IH m' Hp) as [Hp' Hs'].
    destruct (run inputs m') as [m'' t']. cbn [fst snd] in *.
    split; [exact Hp'|]. rewrite sleeps_app. apply Forall_app. split; assumption.
Qed.

(** X12: from the start of the worker on, the local [sleep_ms] of
    [SetupAdbConnection] stays between 500 and 2000, and every [usleep] is
    given between 500000 and 2000000 microseconds (the multiplication by 1000
    never overflows an [int]). *)
Theorem sleeps_within_bounds (inputs : list Input)
    (agent_control_sock write_event_fd : Z) :
  let r := run inputs (boot agent_control_sock write_event_fd) in
  sleep_ms_in_bounds (pc (fst r))
  /\ Forall (fun usec => 500000 <= usec <= 2000000) (sleeps (snd r)).
Proof.
  cbv zeta. apply run_sleep_bounds. exact I.
Qed.

(** X11: once [StopDebuggerThreads] has set [shutting_down_], the worker
    leaves [RunPollLoop] within two evaluations of a loop condition, wherever
    it was, without polling, connecting, sleeping or touching the connection
    state. *)
Theorem shutdown_within_two_steps (m : Machine) (o1 o2 : Oracle) :
  let r := run [StopDebuggerThreads; worker o1; worker o2] m in
  terminated (pc (fst r)) = true
  /\ snd r = []
  /\ world (fst r)
     = mkWorld (set_shutting_down true (self (world m))) (adb_rx (world m)).
Proof.
  destruct m as [p [s rx]].
  destruct s as [ctx lsock sock wfd sd loaded listening has sent perf notified
                   nid].
  destruct p; cbn; repeat split; reflexivity.
Qed.

End Lifecycle.

(** ** The write lock and the descriptors *)

Lemma lock_discipline_app (held : bool) (t1 t2 : list Event) :
  lock_discipline held t1 = true -> lock_discipline false t2 = true ->
  lock_discipline held (t1 ++ t2) = true.
Proof.
  intros H1 H2. revert held H1.
  induction t1 as [|e t1 IH]; intros held H.
  - destruct held; [discriminate H|exact H2].
  - destruct e, held; cbn [app lock_discipline negb andb] in *;
      try discriminate H; apply IH; exact H.
Qed.

Lemma dropped_connections_app (t1 t2 : list Event) :
  dropped_connections (t1 ++ t2)
  = dropped_connections t1 ++ dropped_connections t2.
Proof.
  induction t1 as [|e t1 IH]; [reflexivity|].
  destruct e; cbn [app dropped_connections]; rewrite IH; reflexivity.
Qed.

Section Ownership.
Context {decls : ExternalDecls}.

Lemma step_lock_discipline (i : Input) (m : Machine) :
  lock_discipline false (snd (step i m)) = true.
Proof.
  destruct m as [p [s rx]].
  destruct s as [ctx lsock sock wfd sd loaded listening has sent perf notified
                   nid].
  unfold_worker. destruct i; break_conds.
  all: reflexivity.
Qed.

Lemma step_no_dropped_connection (i : Input) (m : Machine) :
  dropped_connections (snd (step i m)) = [].
Proof.
  destruct m as [p [s rx]].
  destruct s as [ctx lsock sock wfd sd loaded listening has sent perf notified
                   nid].
  unfold_worker. destruct i; break_conds.
  all: try reflexivity.
  all: bool_hyps; subst.
  all: exfalso; cbn in *; congruence.
Qed.

(** X7: whatever happens, the descriptor in [adb_connection_socket_] is
    either kept, or reset (and then the descriptor reset is the stored one
    and the field is -1 afterwards), or stored when the field was -1: a
    stored descriptor is never overwritten by another. *)
Theorem socket_ownership (i : Input) (m : Machine) :
  ownership_step (self (world m)) (self (world (fst (step i m))))
    (snd (step i m)).
Proof.
  destruct m as [p [s rx]].
  destruct s as [ctx lsock sock wfd sd loaded listening has sent perf notified
                   nid].
  unfold_worker. destruct i; break_conds.
  all: unfold ownership_step; cbn.
  all: try (left; split; reflexivity).
  all: try (right; left; split; reflexivity).
  all: bool_hyps; subst.
  all: try (exfalso; cbn in *; congruence).
  all: right; right; repeat split; try reflexivity.
  all: try (apply Z.eqb_neq; assumption).
  all: apply Z.eqb_eq; assumption.
Qed.


Lemma step_agent_flags (i : Input) (m : Machine) :
  let s := self (world m) in
  let s' := self (world (fst (step i m))) in
  (agent_listening_ s = true -> agent_loaded_ s = true) ->
  (agent_has_socket_ s = true -> agent_loaded_ s = true) ->
  (agent_listening_ s' = true -> agent_loaded_ s' = true)
  /\ (agent_has_socket_ s' = true -> agent_loaded_ s' = true).
Proof.
  destruct m as [p [s rx]].
  destruct s as [ctx lsock sock wfd sd loaded listening has sent perf notified
                   nid]. cbv zeta.
  unfold_worker. destruct i; break_conds.
  all: cbn; intros Hl Hh; split; intros H; try (apply Hl; exact H);
    try (apply Hh; exact H); try reflexivity; try discriminate.
  all: bool_hyps; subst.
  all: try (exfalso; cbn in *; congruence).
Qed.

Lemma step_fresh_phase (i : Input) (m : Machine) :
  let s := self (world m) in
  let s' := self (world (fst (step i m))) in
  (agent_loaded_ s = false -> adb_connection_socket_ s = -1 ->
   performed_handshake_ s = false /\ notified_ddm_active_ s = false) ->
  (agent_loaded_ s' = false -> adb_connection_socket_ s' = -1 ->
   performed_handshake_ s' = false /\ notified_ddm_active_ s' = false).
Proof.
  destruct m as [p [s rx]].
  destruct s as [ctx lsock sock wfd sd loaded listening has sent perf notified
                   nid]. cbv zeta.
  unfold_worker. destruct i; break_conds.
  all: cbn; intros Hinv Hl Hs; try (apply Hinv; assumption).
  all: bool_hyps; subst.
  all: try discriminate.
  all: try (split; reflexivity).
  all: try (exfalso; cbn in *; congruence).
  all: try (split; [reflexivity|]).
  all: cbn in *; try congruence.
  all: try match goal with
       | H : (?x =? ?y) = false, E : ?x = ?y |- _ =>
           rewrite E in H; cbn in H; discriminate H
       end.
Qed.

Lemma run_agent_flags (inputs : list Input) (m : Machine) :
  (agent_listening_ (self (world m)) = true ->
   agent_loaded_ (self (world m)) = true) ->
  (agent_has_socket_ (self (world m)) = true ->
   agent_loaded_ (self (world m)) = true) ->
  (agent_listening_ (self (world (fst (run inputs m)))) = true ->
   agent_loaded_ (self (world (fst (run inputs m)))) = true)
  /\ (agent_has_socket_ (self (world (fst (run inputs m)))) = true ->
      agent_loaded_ (self (world (fst (run inputs m)))) = true).
Proof.
  revert m. induction inputs as [|i inputs IH]; intros m Hl Hh.
  - split; assumption.
  - cbn [run]. pose proof (step_agent_flags i m Hl Hh) as [Hl' Hh'].
    destruct (step i m) as [m' t]. specialize (IH m').
    destruct (run inputs m') as [m'' t']. cbn [fst snd] in *.
    apply IH; assumption.
Qed.

Lemma run_fresh_phase (inputs : list Input) (m : Machine) :
  (agent_loaded_ (self (world m)) = false ->
   adb_connection_socket_ (self (world m)) = -1 ->
   performed_handshake_ (self (world m)) = false
   /\ notified_ddm_active_ (self (world m)) = false) ->
  agent_loaded_ (self (world (fst (run inputs m)))) = false ->
  adb_connection_socket_ (self (world (fst (run inputs m)))) = -1 ->
  performed_handshake_ (self (world (fst (run inputs m)))) = false
  /\ notified_ddm_active_ (self (world (fst (run inputs m)))) = false.
Proof.
  revert m. induction inputs as [|i inputs IH]; intros m Hm.
  - exact Hm.
  - cbn [run]. pose proof (step_fresh_phase i m Hm) as Hm'.
    destruct (step i m) as [m' t]. specialize (IH m').
    destruct (run inputs m') as [m'' t']. cbn [fst snd] in *.
    apply IH. exact Hm'.
Qed.

(** X5: along every run, whatever thread acts, the write lock is used
    properly: it is never taken while held nor released while free, every
    step leaves it free, and the debug socket is reset and a DDM packet
    written with [writev] only while it is held. *)
Theorem write_lock_discipline (inputs : list Input) (m : Machine) :
  lock_discipline false (snd (run inputs m)) = true.
Proof.
  revert m. induction inputs as [|i inputs IH]; intros m; [reflexivity|].
  cbn [run]. pose proof (step_lock_discipline i m) as Hs.
  destruct (step i m) as [m' t]. specialize (IH m').
  destruct (run inputs m') as [m'' t']. cbn [fst snd] in *.
  apply lock_discipline_app; assumption.
Qed.

(** X6: no run ever receives a connection from adbd and drops it: while a
    descriptor is stored in [adb_connection_socket_] the daemon session is
    not polled, so the branch of [RunPollLoop] that refuses a second debugger
    is never taken. *)
Theorem no_connection_dropped (inputs : list Input) (m : Machine) :
  dropped_connections (snd (run inputs m)) = [].
Proof.
  revert m. induction inputs as [|i inputs IH]; intros m; [reflexivity|].
  cbn [run]. pose proof (step_no_dropped_connection i m) as Hs.
  destruct (step i m) as [m' t]. specialize (IH m').
  destruct (run inputs m') as [m'' t']. cbn [fst snd] in *.
  rewrite dropped_connections_app, Hs, IH. reflexivity.
Qed.

(** X9: in every state the worker can reach, [agent_listening_] and
    [agent_has_socket_] are set only if the agent is loaded: the control
    socket is not read before. *)
Theorem agent_flags_need_loaded_agent (inputs : list Input)
    (agent_control_sock write_event_fd : Z) :
  let s :=
    self (world (fst (run inputs (boot agent_control_sock write_event_fd)))) in
  (agent_listening_ s = true -> agent_loaded_ s = true)
  /\ (agent_has_socket_ s = true -> agent_loaded_ s = true).
Proof.
  cbv zeta. apply run_agent_flags; cbn; discriminate.
Qed.

(** X10: in every state the worker can reach with no agent loaded and no
    debug socket, [performed_handshake_] and [notified_ddm_active_] are
    false: the next debugger starts with the handshake, and with the monitor
    reported inactive. *)
Theorem reconnect_starts_fresh (inputs : list Input)
    (agent_control_sock write_event_fd : Z) :
  let s :=
    self (world (fst (run inputs (boot agent_control_sock write_event_fd)))) in
  agent_loaded_ s = false -> adb_connection_socket_ s = -1 ->
  performed_handshake_ s = false /\ notified_ddm_active_ s = false.
Proof.
  cbv zeta. apply run_fresh_phase. cbn. intros _ _. split; reflexivity.
Qed.

End Ownership.

(** ** More of the local protocol handling *)

Lemma uint32_t_le (x : Z) : 0 <= x -> uint32_t x <= x.
Proof. intros H. unfold uint32_t. apply Z.mod_le; lia. Qed.

Section MoreLocalHandling.
Context {decls : ExternalDecls}.

(** [HandleDataWithoutAgent] on a well-formed DDM command, whatever the DDM
    handler answers. *)
Lemma handle_ddm_command (o : Oracle) (s : AdbConnectionState)
    (id flags type : Z) (data rest : list Z) :
  IsJdwpAllowed o = true -> performed_handshake_ s = true ->
  peek_fails o = false -> ioctl_fails o = false -> recv_fails o = false ->
  0 <= id < 2 ^ 32 -> 0 <= type < 2 ^ 32 ->
  Z.of_nat (length data) + Z.of_nat (length rest) + 19 < 2 ^ 32 ->
  HandleDataWithoutAgent o (mkWorld s (ddm_command id flags type data ++ rest))
  = (Returned, mkWorld (set_notified_ddm_active true s) rest,
     (if notified_ddm_active_ s then [] else [DdmConnected])
     ++ [DdmHandleChunk_call type data]
     ++ match DdmHandleChunk o with
        | None => []
        | Some (reply_type, reply) =>
            SendDdmPacket id kReply reply_type reply
              (set_notified_ddm_active true s)
        end).
Proof.
  intros Ha Hp Hpk Hio Hrecv Hid Hty Hlen.
  assert (Hlen' : Z.of_nat (length data) + 19 < 2 ^ 32) by lia.
  destruct (ddm_command_fields id flags type data rest Hid Hty Hlen')
    as (Hfl & Hpid & Hset & Hcmd & Htype & Hdl & Hskip & Hfirst).
  set (rx := ddm_command id flags type data ++ rest) in *.
  assert (Hrx : length rx = (19 + length data + length rest)%nat).
  { unfold rx. rewrite length_app, length_ddm_command. reflexivity. }
  rewrite HandleDataWithoutAgent_header by (try assumption; lia).
  rewrite Hset, Hcmd, Hio, Hrecv, !Z.eqb_refl. cbn [negb orb].
  rewrite Hfl, Hdl, Htype, Hpid. unfold kPacketHeaderLen.
  rewrite (proj2 (Z.ltb_ge _ _)) by lia.
  rewrite uint32_t_small by lia.
  rewrite (proj2 (Z.ltb_ge _ _)) by lia.
  cbv zeta.
  rewrite (proj2 (Z.ltb_ge _ _)) by lia.
  replace (19 + Z.of_nat (length data) - 11 - 2 * 4)
    with (Z.of_nat (length data)) by lia.
  rewrite Z.gtb_ltb, Z.ltb_irrefl.
  replace (Z.to_nat (19 + Z.of_nat (length data)))
    with (19 + length data)%nat by lia.
  rewrite Nat2Z.id, Hskip, Hfirst.
  destruct (DdmHandleChunk o) as [[reply_type reply]|]; [reflexivity|].
  rewrite app_nil_r. reflexivity.
Qed.

(** X3: in packet phase (and with the system calls succeeding), for a
    well-formed DDM command to which the DDM handler has nothing to reply,
    [HandleDataWithoutAgent] consumes the packet, reports the monitor active
    if it had not, hands the chunk to the handler and writes nothing. *)
Theorem chunk_without_reply (o : Oracle) (s : AdbConnectionState)
    (id flags type : Z) (data rest : list Z) :
  IsJdwpAllowed o = true -> performed_handshake_ s = true ->
  peek_fails o = false -> ioctl_fails o = false -> recv_fails o = false ->
  DdmHandleChunk o = None ->
  0 <= id < 2 ^ 32 -> 0 <= type < 2 ^ 32 ->
  Z.of_nat (length data) + Z.of_nat (length rest) + 19 < 2 ^ 32 ->
  let r :=
    HandleDataWithoutAgent o
      (mkWorld s (ddm_command id flags type data ++ rest)) in
  r = (Returned, mkWorld (set_notified_ddm_active true s) rest,
       (if notified_ddm_active_ s then [] else [DdmConnected])
       ++ [DdmHandleChunk_call type data])
  /\ written (snd r) = []
  /\ lock_discipline false (snd r) = true.
Proof.
  intros Ha Hp Hpk Hio Hrecv Hnone Hid Hty Hlen r. subst r.
  rewrite handle_ddm_command by assumption. rewrite Hnone, app_nil_r.
  cbn [snd]. destruct (notified_ddm_active_ s); repeat split; reflexivity.
Qed.

(** X2: what [PublishDdmData] writes on a connection that has completed the
    handshake is one packet, with an id in [2^31, 2^32), that
    [HandleDataWithoutAgent] of a coordinator reading it parses as a DDM
    command with the same id, chunk type and chunk. *)
Theorem published_chunk_is_parsed (sender : AdbConnectionState)
    (type : Z) (data : list Z)
    (o : Oracle) (receiver : AdbConnectionState) (rest : list Z) :
  (adb_connection_socket_ sender =? -1) = false ->
  performed_handshake_ sender = true ->
  0 <= next_ddm_id_ sender < 2 ^ 32 ->
  0 <= type < 2 ^ 32 ->
  Z.of_nat (length data) + Z.of_nat (length rest) + 19 < 2 ^ 32 ->
  IsJdwpAllowed o = true -> performed_handshake_ receiver = true ->
  peek_fails o = false -> ioctl_fails o = false -> recv_fails o = false ->
  let id := fst (NextDdmId sender) in
  let pkt := ddm_packet_header id kCmd type data in
  2 ^ 31 <= id < 2 ^ 32
  /\ snd (PublishDdmData type data sender)
     = [ScopedEventFdLock_acquire;
        writev_call (adb_connection_socket_ sender) pkt data;
        ScopedEventFdLock_release]
  /\ HandleDataWithoutAgent o (mkWorld receiver ((pkt ++ data) ++ rest))
     = (Returned, mkWorld (set_notified_ddm_active true receiver) rest,
        (if notified_ddm_active_ receiver then [] else [DdmConnected])
        ++ [DdmHandleChunk_call type data]
        ++ match DdmHandleChunk o with
           | None => []
           | Some (reply_type, reply) =>
               SendDdmPacket id kReply reply_type reply
                 (set_notified_ddm_active true receiver)
           end).
Proof.
  intros Hsock Hperf Hnext Hty Hlen Ha Hp Hpk Hio Hrecv id pkt.
  assert (Hid : 2 ^ 31 <= id < 2 ^ 32).
  { unfold id, NextDdmId. cbn [fst]. rewrite lor_sign by exact Hnext.
    pose proof (Z.mod_pos_bound (next_ddm_id_ sender) 2147483648 ltac:(lia)).
    change (2 ^ 31) with 2147483648. change (2 ^ 32) with 4294967296. lia. }
  split; [exact Hid|]. split.
  - unfold pkt, id, PublishDdmData, NextDdmId, SendDdmPacket.
    destruct sender as [ctx lsock sock wfd sd loaded listening has sent perf
                          notified nid].
    cbn [adb_connection_socket_ performed_handshake_ next_ddm_id_
         set_next_ddm_id fst snd] in *.
    rewrite Hsock, Hperf. reflexivity.
  - change (pkt ++ data)
      with (ddm_command id (DdmPacketType_uint8 kCmd) type data).
    apply handle_ddm_command; try assumption. lia.
Qed.


(** X14: in packet phase [HandleDataWithoutAgent] has three outcomes only,
    whatever the system calls answer: it closes the connection as by
    [CloseFds]; or it attaches the agent and leaves the stream and the state
    otherwise untouched; or it consumes exactly the number of bytes the
    header declares, which is at least 11 and all readable, keeping the
    socket open, the phase and the agent unloaded. It never consumes part of
    a packet. *)
Theorem packet_phase_outcomes (o : Oracle) (w : World) :
  IsJdwpAllowed o = true -> performed_handshake_ (self w) = true ->
  let r := HandleDataWithoutAgent o w in
  let w' := snd (fst r) in
  (w' = fst (CloseFds w) /\ snd r = snd (CloseFds w))
  \/ (w' = mkWorld (fst (AttachJdwpAgent o (self w))) (adb_rx w)
      /\ snd r = [AttachAgent_call (notified_ddm_active_ (self w))])
  \/ (adb_rx w' = skipn (Z.to_nat (packet_full_len (adb_rx w))) (adb_rx w)
      /\ kPacketHeaderLen <= packet_full_len (adb_rx w)
         <= Z.of_nat (length (adb_rx w))
      /\ adb_connection_socket_ (self w') = adb_connection_socket_ (self w)
      /\ performed_handshake_ (self w') = true
      /\ agent_loaded_ (self w') = agent_loaded_ (self w)
      /\ attaches (snd r) = 0%nat
      /\ closed_sockets (snd r) = []).
Proof.
  intros Ha Hp. destruct w as [s rx]. cbn [self adb_rx] in *. cbv zeta.
  destruct (peek_fails o) eqn:Hpk.
  { left. unfold HandleDataWithoutAgent. cbn [self adb_rx].
    rewrite Ha, Hp, Hpk. cbn [negb]. change (-1 <=? 0) with true. cbv iota.
    destruct (CloseFds (mkWorld s rx)). split; reflexivity. }
  destruct (Nat.ltb_spec (length rx) 11) as [Hshort|Hfull].
  { unfold HandleDataWithoutAgent. cbn [self adb_rx].
    rewrite Ha, Hp, Hpk. cbn [negb].
    change (Z.to_nat kPacketHeaderLen) with 11%nat.
    rewrite firstn_all2 by lia. unfold kPacketHeaderLen.
    destruct (Z.leb_spec (Z.of_nat (length rx)) 0).
    - left. destruct (CloseFds (mkWorld s rx)). split; reflexivity.
    - right; left. rewrite (proj2 (Z.ltb_lt _ _)) by lia.
      split; reflexivity. }
  rewrite HandleDataWithoutAgent_header by assumption.
  destruct (negb (packet_cmd_set rx =? kDdmCommandSet)
            || negb (packet_cmd rx =? kDdmChunkCommand)
            || (packet_full_len rx <? kPacketHeaderLen)) eqn:Hunk.
  { right; left. split; reflexivity. }
  destruct (ioctl_fails o).
  { left. split; reflexivity. }
  destruct (uint32_t (Z.of_nat (length rx)) <? packet_full_len rx) eqn:Hav.
  { right; left. split; reflexivity. }
  destruct (recv_fails o).
  { left. split; reflexivity. }
  right; right.
  apply orb_false_iff in Hunk. destruct Hunk as [_ Hfl].
  apply Z.ltb_ge in Hfl, Hav.
  pose proof (uint32_t_le (Z.of_nat (length rx)) ltac:(lia)) as Hu.
  assert (Hb : kPacketHeaderLen <= packet_full_len rx
               <= Z.of_nat (length rx)) by lia.
  cbv zeta. unfold SendDdmPacket.
  destruct s as [ctx lsock sock wfd sd loaded listening has sent perf notified
                   nid].
  cbn [performed_handshake_] in Hp. subst perf.
  break_conds; cbn; repeat split; try reflexivity; try apply Hb.
Qed.

(** X15: when the agent's message is the listen-start one (and duplicating
    the descriptors succeeds), [RunPollLoop] sets [agent_listening_]; with no
    debug socket it transfers nothing; with one it makes exactly one
    transfer, whose token is the skip-handshake one if [performed_handshake_]
    is set and the perform-handshake one otherwise, and [sent_agent_fds_] is
    set exactly if [sendmsg] did not fail. *)
Theorem listen_start_token (o : Oracle) (w : World) (datagram buf : list Z) :
  IsJdwpAllowed o = true ->
  agent_control_recv o = Some datagram ->
  agent_control_buf o datagram = Some buf ->
  (memcmp kListenStartMessage buf (length kListenStartMessage) =? 0) = true ->
  (dup_read_fd o =? -1) = false -> (dup_write_fd o =? -1) = false ->
  (dup_write_lock_fd o =? -1) = false ->
  let r := RunPollLoop_agent_control o w in
  agent_listening_ (self (snd (fst r))) = true
  /\ handoffs (snd r)
     = (if adb_connection_socket_ (self w) =? -1 then []
        else [c_str (if performed_handshake_ (self w)
                     then kSkipHandshakeMessage
                     else kPerformHandshakeMessage)])
  /\ sent_agent_fds_ (self (snd (fst r)))
     = (if (adb_connection_socket_ (self w) =? -1) || (sendmsg_res o <? 0)
        then sent_agent_fds_ (self w) else true).
Proof.
  intros Ha Hr Hbuf Hmsg Hd1 Hd2 Hd3. cbv zeta.
  unfold RunPollLoop_agent_control. rewrite Ha, Hr. cbn [negb].
  unfold agent_control_buf in Hbuf. cbv zeta in Hbuf. rewrite Hbuf, Hmsg.
  destruct w as [s rx].
  destruct s as [ctx lsock sock wfd sd loaded listening has sent perf notified
                   nid].
  unfold SendAgentFds, ctl_of. rewrite Hd1, Hd2, Hd3.
  cbn [self adb_connection_socket_ performed_handshake_ sent_agent_fds_
       set_agent_listening].
  destruct (sock =? -1); cbn [negb orb]; [repeat split; reflexivity|].
  destruct perf, (sendmsg_res o <? 0); cbn; repeat split; reflexivity.
Qed.

End MoreLocalHandling.

(** * The added properties on concrete inputs *)

(** The first id is 2^31 + 1. *)
Lemma NextDdmId_sign_bit_witness :
  fst (NextDdmId (started 3 4)) = 2147483649
  /\ next_ddm_id_ (snd (NextDdmId (started 3 4))) = 2.
Proof.
  destruct (NextDdmId_sign_bit (started 3 4) ltac:(cbn; lia))
    as (_ & Hid & _ & Hnext).
  split; [rewrite Hid|rewrite Hnext]; reflexivity.
Defined.

(** An option string that asks for suspension. *)
Lemma ValidateJdwpOptions_rejects_witness :
  ValidateJdwpOptions (bytes_of_string OptionLiterals.suspending) = false.
Proof.
  apply (proj2 (ValidateJdwpOptions_rejects
                  (bytes_of_string OptionLiterals.suspending))).
  right.
  exists (firstn 20 (bytes_of_string OptionLiterals.suspending)), [].
  reflexivity.
Defined.


(** After the hand-off on listen-start the agent is listening, and loaded. *)
Lemma agent_flags_need_loaded_agent_witness :
  agent_listening_
    (self (world (fst (run (decls := spec_decls) handoff_on_listen
                         (boot 3 4))))) = true
  /\ agent_loaded_
       (self (world (fst (run (decls := spec_decls) handoff_on_listen
                            (boot 3 4))))) = true.
Proof.
  split; [reflexivity|].
  exact (proj1 (agent_flags_need_loaded_agent (decls := spec_decls)
                  handoff_on_listen 3 4) eq_refl).
Defined.

(** After a monitor session that ended with a hangup. *)
Lemma reconnect_starts_fresh_witness :
  let s :=
    self (world (fst (run (decls := spec_decls) one_monitor_session
                        (boot 3 4)))) in
  performed_handshake_ s = false /\ notified_ddm_active_ s = false.
Proof.
  exact (reconnect_starts_fresh (decls := spec_decls) one_monitor_session 3 4
           eq_refl eq_refl).
Defined.

(** The chunk HELO, to which the handler has nothing to reply, followed by
    one byte of the next packet. *)
Lemma chunk_without_reply_witness :
  HandleDataWithoutAgent (decls := spec_decls) (adb_readable None)
    (packet_phase (helo ++ [9]))
  = (Returned,
     mkWorld (set_notified_ddm_active true (self (packet_phase []))) [9],
     [DdmConnected; DdmHandleChunk_call 1212501071 [0; 0; 0; 1]]).
Proof.
  exact (proj1 (chunk_without_reply (decls := spec_decls) (adb_readable None)
                  (self (packet_phase [])) 2 0 1212501071 [0; 0; 0; 1] [9]
                  eq_refl eq_refl eq_refl eq_refl eq_refl eq_refl
                  ltac:(cbn; lia) ltac:(cbn; lia) ltac:(cbn; lia))).
Defined.

(** The first chunk published on a connection in packet phase. *)
Lemma published_chunk_is_parsed_witness :
  snd (PublishDdmData (decls := spec_decls) 1212501071 [1; 2]
         (self (packet_phase [])))
  = [ScopedEventFdLock_acquire;
     writev_call 7
       [0; 0; 0; 21; 128; 0; 0; 1; 0; 199; 1; 72; 69; 76; 79; 0; 0; 0; 2]
       [1; 2];
     ScopedEventFdLock_release].
Proof.
  exact (proj1 (proj2 (published_chunk_is_parsed (decls := spec_decls)
                         (self (packet_phase [])) 1212501071 [1; 2]
                         (adb_readable None) (self (packet_phase [])) []
                         eq_refl eq_refl ltac:(cbn; lia) ltac:(cbn; lia)
                         ltac:(cbn; lia) eq_refl eq_refl eq_refl eq_refl
                         eq_refl))).
Defined.


(** A whole chunk is readable: the third outcome, 23 bytes consumed. *)
Lemma packet_phase_outcomes_witness :
  adb_rx (snd (fst (HandleDataWithoutAgent (decls := spec_decls)
                      (adb_readable None) (packet_phase (helo ++ [9])))))
  = [9].
Proof.
  destruct (packet_phase_outcomes (decls := spec_decls) (adb_readable None)
              (packet_phase (helo ++ [9])) eq_refl eq_refl)
    as [[Hc _]|[[Ha _]|(Hrx & _)]].
  - rewrite Hc. discriminate.
  - rewrite Ha. discriminate.
  - rewrite Hrx. reflexivity.
Defined.

(** The agent starts listening while connection 7 has completed the
    handshake: the descriptors go with the skip-handshake token. *)
Lemma listen_start_token_witness :
  handoffs
    (snd (RunPollLoop_agent_control (decls := spec_decls)
            (agent_says (kListenStartMessage (ExternalDecls := spec_decls)) 0)
            (packet_phase [])))
  = [c_str (kSkipHandshakeMessage (ExternalDecls := spec_decls))].
Proof.
  exact (proj1 (proj2 (listen_start_token (decls := spec_decls)
                         (agent_says
                            (kListenStartMessage
                               (ExternalDecls := spec_decls)) 0)
                         (packet_phase [])
                         (kListenStartMessage (ExternalDecls := spec_decls))
                         (kListenStartMessage (ExternalDecls := spec_decls)
                          ++ 0 :: repeat 0 243)
                         eq_refl eq_refl eq_refl eq_refl eq_refl eq_refl
                         eq_refl))).
Defined.
